(** * import-weight: Google Fit weight export to CSV

    A shallow embedding of [import-weight.py] and the properties of its
    conversion pipeline: load, validate, extract and transform, emit.

    Conventions of the embedding.
    - A decoded JSON document is a Python value ([pyval]); a [dict] is a
      finite map from [str] keys, as [json.load] builds it.
    - A [str] is a Rocq [string], one [ascii] per character (code points
      up to 255).
    - A [float] is an IEEE 754 binary64 number, [spec_float] with
      precision 53 and maximal exponent 1024.
    - An exception propagates as [Raise]; the standard output stream and
      the files opened so far are threaded as explicit state.
    - What the local time zone and [repr] of floats and containers give
      is fixed by the platform and the Python run time, not by the
      program: they are section variables [tz] and [py_repr]. *)

From Stdlib Require Import ZArith String Ascii List Lia.
From Stdlib Require Import SpecFloat DecimalString.
From stdpp Require Import base option list gmap strings.

Local Open Scope string_scope.
Local Open Scope Z_scope.

(** Text is computed with here, so concatenation may reduce. *)
#[local] Arguments String.append !s1 s2 : simpl nomatch.

(** ** Python values *)

#[warnings="-register-all"]
Inductive pyval : Type :=
  | PyNone
  | PyBool (b : bool)
  | PyInt (n : Z)
  | PyFloat (x : spec_float)
  | PyStr (s : string)
  | PyList (l : list pyval)
  | PyDict (m : gmap string pyval).

(** ** Exceptions and fallible computations *)

Inductive exn : Type :=
  | TypeError (msg : string)
  | KeyError (key : pyval)
  | IndexError
  | AttributeError
  | OverflowError
  | ValueError
  | OSError
  | ZeroDivisionError
  | FileNotFoundError (path : string)
  | JSONDecodeError.

Inductive outcome (A : Type) : Type :=
  | Ok (a : A)
  | Raise (e : exn).
Arguments Ok {A} a.
Arguments Raise {A} e.

Definition obind {A B} (c : outcome A) (k : A -> outcome B) : outcome B :=
  match c with
  | Ok a => k a
  | Raise e => Raise e
  end.

Notation "'let*' x := c1 'in' c2" := (obind c1 (fun x => c2))
  (at level 10, x name, c1 at level 100, c2 at level 200).

Definition raises {A} (c : outcome A) : Prop := exists e, c = Raise e.

Definition to_option {A} (c : outcome A) : option A :=
  match c with
  | Ok a => Some a
  | Raise _ => None
  end.

(** ** Characters and text *)

Definition LF : ascii := ascii_of_nat 10.
Definition CR : ascii := ascii_of_nat 13.
Definition DQUOTE : ascii := ascii_of_nat 34.

Definition str1 (c : ascii) : string := String c EmptyString.

(** [str(n)] for an [int]: decimal digits, with a minus sign when negative. *)
Definition str_of_int (n : Z) : string := NilZero.string_of_int (Z.to_int n).

(** ** Built-in operations on values *)

(** [o.get(k)]: only a [dict] has the method. *)
Definition py_get (o : pyval) (k : string) : outcome pyval :=
  match o with
  | PyDict m => Ok (default PyNone (m !! k))
  | _ => Raise AttributeError
  end.

(** [o[k]] for a [str] key. *)
Definition getitem_str (o : pyval) (k : string) : outcome pyval :=
  match o with
  | PyDict m =>
      match m !! k with
      | Some v => Ok v
      | None => Raise (KeyError (PyStr k))
      end
  | PyList _ => Raise (TypeError "list indices must be integers or slices, not str")
  | PyStr _ => Raise (TypeError "string indices must be integers, not 'str'")
  | _ => Raise (TypeError "object is not subscriptable")
  end.

(** Sequence indexing: a negative index counts from the end. *)
Definition seq_index {A} (l : list A) (i : Z) : outcome A :=
  let j := if i <? 0 then i + Z.of_nat (length l) else i in
  if j <? 0 then Raise IndexError
  else match l !! Z.to_nat j with
       | Some x => Ok x
       | None => Raise IndexError
       end.

Definition chars (s : string) : list pyval :=
  map (fun c => PyStr (str1 c)) (list_ascii_of_string s).

(** [o[i]] for an [int] index; the keys of a decoded JSON object are all
    [str], so an [int] key is never found. *)
Definition getitem_int (o : pyval) (i : Z) : outcome pyval :=
  match o with
  | PyList l => seq_index l i
  | PyStr s => seq_index (chars s) i
  | PyDict _ => Raise (KeyError (PyInt i))
  | _ => Raise (TypeError "object is not subscriptable")
  end.

(** [len(o)] *)
Definition py_len (o : pyval) : outcome Z :=
  match o with
  | PyList l => Ok (Z.of_nat (length l))
  | PyStr s => Ok (Z.of_nat (String.length s))
  | PyDict m => Ok (Z.of_nat (size m))
  | _ => Raise (TypeError "object has no len()")
  end.

(** The items a [for] loop visits; a [dict] yields its keys. *)
Definition py_iter (o : pyval) : outcome (list pyval) :=
  match o with
  | PyList l => Ok l
  | PyStr s => Ok (chars s)
  | PyDict m => Ok (map (fun kv => PyStr (fst kv)) (map_to_list m))
  | _ => Raise (TypeError "object is not iterable")
  end.

(** ** Regular expressions: the fragment [re.search] is called with

    A pattern is a sequence of literal characters and dots, optionally
    anchored at the start of the text by a leading caret.  A dot stands
    for any character except a newline. *)

Inductive re_item : Type :=
  | ReLit (c : ascii)
  | ReDot.

Fixpoint re_items (p : string) : list re_item :=
  match p with
  | EmptyString => []
  | String c p' => (if Ascii.eqb c "." then ReDot else ReLit c) :: re_items p'
  end.

Definition re_item_matches (it : re_item) (c : ascii) : bool :=
  match it with
  | ReLit a => Ascii.eqb a c
  | ReDot => negb (Ascii.eqb c LF)
  end.

Fixpoint re_match_here (its : list re_item) (s : string) : bool :=
  match its, s with
  | [], _ => true
  | it :: its', String c s' => re_item_matches it c && re_match_here its' s'
  | _ :: _, EmptyString => false
  end.

Fixpoint re_match_from (its : list re_item) (s : string) : bool :=
  re_match_here its s ||
  match s with
  | String _ s' => re_match_from its s'
  | EmptyString => false
  end.

(** [re.search(pattern, v)], as the truth value of its result: a match
    object is true, [None] is false. *)
Definition re_search (pattern : string) (v : pyval) : outcome bool :=
  match v with
  | PyStr s =>
      Ok match pattern with
         | String "^" p => re_match_here (re_items p) s
         | _ => re_match_from (re_items pattern) s
         end
  | _ => Raise (TypeError "expected string or bytes-like object")
  end.

(** ** Floating point: binary64 *)

Definition float_of_Z (n : Z) : spec_float := binary_normalize 53 1024 n 0 false.

(** Conversion of an [int] operand to [float]: correctly rounded, and an
    [OverflowError] when the result would not be finite. *)
Definition float_of_int (n : Z) : outcome spec_float :=
  match float_of_Z n with
  | S754_infinity _ => Raise OverflowError
  | x => Ok x
  end.

Definition float_is_zero (x : spec_float) : bool :=
  match x with
  | S754_zero _ => true
  | _ => false
  end.

(** [a / d] where the right operand [d] is a [float]. *)
Definition truediv_float (a : pyval) (d : spec_float) : outcome spec_float :=
  let* x := match a with
            | PyInt n => float_of_int n
            | PyBool b => float_of_int (if b then 1 else 0)
            | PyFloat x => Ok x
            | _ => Raise (TypeError "unsupported operand type(s) for /")
            end in
  if float_is_zero d then Raise ZeroDivisionError
  else Ok (SFdiv 53 1024 x d).

(** The literals [1e9] and [1e6]: both are exact in binary64. *)
Definition float_1e9 : spec_float := float_of_Z 1000000000.
Definition float_1e6 : spec_float := float_of_Z 1000000.

Definition signed (s : bool) (n : Z) : Z := if s then - n else n.

(** C's [modf]: the integral part, and the fractional part (which is
    exact, with the sign of the argument). *)
Definition modf (x : spec_float) : Z * spec_float :=
  match x with
  | S754_finite s m e =>
      if 0 <=? e then (signed s (Z.pos m * 2 ^ e), S754_zero s)
      else (signed s (Z.pos m / 2 ^ (- e)),
            binary_normalize 53 1024 (signed s (Z.pos m mod 2 ^ (- e))) e s)
  | _ => (0, x)
  end.

(** Rounding of a finite float to the nearest integer, ties to even. *)
Definition round_half_even (x : spec_float) : Z :=
  match x with
  | S754_finite s m e =>
      if 0 <=? e then signed s (Z.pos m * 2 ^ e)
      else
        let d := 2 ^ (- e) in
        let q := Z.pos m / d in
        let r := Z.pos m mod d in
        signed s (if 2 * r <? d then q
                  else if d <? 2 * r then q + 1
                  else if Z.even q then q else q + 1)
  | _ => 0
  end.

(** ** Dates and times *)

Record datetime : Type := {
  year : Z; month : Z; day : Z;
  hour : Z; minute : Z; second : Z; microsecond : Z;
  fold : bool
}.

(** The broken-down time of the C library, [struct tm], as far as it is
    read: the year counts from 1900 and the month from 0. *)
Record tm : Type := {
  tm_year : Z; tm_mon : Z; tm_mday : Z;
  tm_hour : Z; tm_min : Z; tm_sec : Z
}.

(** A POSIX timestamp as whole seconds and microseconds, the latter
    rounded half to even; a timestamp that is not a number or does not
    fit the platform's 64-bit [time_t] is refused. *)
Definition timestamp_to_timeval (t : spec_float) : outcome (Z * Z) :=
  match t with
  | S754_nan => Raise ValueError
  | S754_infinity _ => Raise OverflowError
  | _ =>
      let '(intpart, floatpart) := modf t in
      let us := round_half_even (SFmul 53 1024 floatpart float_1e6) in
      let '(sec, us) :=
        if 1000000 <=? us then (intpart + 1, us - 1000000)
        else if us <? 0 then (intpart - 1, us + 1000000)
        else (intpart, us) in
      if (- 2 ^ 63 <=? sec) && (sec <? 2 ^ 63) then Ok (sec, us)
      else Raise OverflowError
  end.

(** The proleptic Gregorian date of a day number counted from
    1970-01-01. *)
Definition civil_from_days (n : Z) : Z * Z * Z :=
  let z := n + 719468 in
  let era := z / 146097 in
  let doe := z - era * 146097 in
  let yoe := (doe - doe / 1460 + doe / 36524 - doe / 146096) / 365 in
  let doy := doe - (365 * yoe + yoe / 4 - yoe / 100) in
  let mp := (5 * doy + 2) / 153 in
  let d := doy - (153 * mp + 2) / 5 + 1 in
  let m := if mp <? 10 then mp + 3 else mp - 9 in
  let y := yoe + era * 400 in
  (if m <=? 2 then y + 1 else y, m, d).

(** The day count of [datetime]: the ordinal of a date, 1 for
    0001-01-01. *)
Definition is_leap (y : Z) : bool :=
  (y mod 4 =? 0) && (negb (y mod 100 =? 0) || (y mod 400 =? 0)).

Definition days_before_year (y : Z) : Z :=
  let y' := y - 1 in
  y' * 365 + y' / 4 - y' / 100 + y' / 400.

Definition days_before_month (y m : Z) : Z :=
  let days := nth (Z.to_nat m) [0; 0; 31; 59; 90; 120; 151; 181; 212; 243; 273; 304; 334] 0 in
  if (2 <? m) && is_leap y then days + 1 else days.

Definition ymd_to_ord (y m d : Z) : Z :=
  days_before_year y + days_before_month y m + d.

(** The seconds from 0001-01-01 00:00:00 to a date and time; years
    outside 1..9999 are refused. *)
Definition utc_to_seconds (y m d hh mm ss : Z) : outcome Z :=
  if (y <? 1) || (9999 <? y) then Raise ValueError
  else Ok (((ymd_to_ord y m d * 24 + hh) * 60 + mm) * 60 + ss).

(** The seconds from 0001-01-01 to the epoch, and the reach of the
    probe that looks for a repeated local time. *)
Definition epoch : Z := 719163 * 24 * 60 * 60.
Definition max_fold_seconds : Z := 24 * 3600.

Fixpoint zeros (n : nat) : string :=
  match n with
  | O => EmptyString
  | S n' => String "0" (zeros n')
  end.

(** A number padded with zeros on the left to [width] digits. *)
Definition zfill (width : nat) (n : Z) : string :=
  let s := str_of_int n in
  (zeros (width - String.length s) ++ s)%string.

(** The directives of [strftime], as the C library of the platform
    (glibc) writes them: the year as a plain decimal number, without
    padding, the other fields on two digits. *)
Definition strftime_directive (c : ascii) (dt : datetime) : string :=
  if Ascii.eqb c "Y" then str_of_int (year dt)
  else if Ascii.eqb c "m" then zfill 2 (month dt)
  else if Ascii.eqb c "d" then zfill 2 (day dt)
  else if Ascii.eqb c "H" then zfill 2 (hour dt)
  else if Ascii.eqb c "M" then zfill 2 (minute dt)
  else if Ascii.eqb c "S" then zfill 2 (second dt)
  else if Ascii.eqb c "%" then "%"
  else String "%" (str1 c).

(** [dt.strftime(fmt)] *)
Fixpoint strftime (fmt : string) (dt : datetime) : string :=
  match fmt with
  | String "%" (String c rest) => (strftime_directive c dt ++ strftime rest dt)%string
  | String c rest => String c (strftime rest dt)
  | EmptyString => EmptyString
  end.

Section Platform.

(** The local time zone: the offset from UTC, in seconds east, that the
    zone applies at a given instant (seconds since the epoch). *)
Variable tz : Z -> Z.

(** [repr] of a [float], [list] or [dict]. *)
Variable py_repr : pyval -> string.

(** The offset applied at an instant.  The offsets of a zone lie between
    -24:59:59 and +25:59:59 (the range of the zone files, RFC 8536); a
    table is read within these bounds. *)
Definition utc_offset (t : Z) : Z := Z.max (- 89999) (Z.min 93599 (tz t)).

(** The platform's [localtime_r]; it fails when the year does not fit
    the C [int] of [tm_year], which [datetime] reports as [OSError]. *)
Definition platform_localtime (t : Z) : outcome tm :=
  let loc := t + utc_offset t in
  let '(y, m, d) := civil_from_days (loc / 86400) in
  let s := loc mod 86400 in
  if (- 2 ^ 31 <=? y - 1900) && (y - 1900 <? 2 ^ 31) then
    Ok {| tm_year := y - 1900; tm_mon := m - 1; tm_mday := d;
          tm_hour := s / 3600; tm_min := s mod 3600 / 60; tm_sec := s mod 60 |}
  else Raise OSError.

(** The local time, in seconds from 0001-01-01, at an instant given in
    seconds from 0001-01-01 UTC. *)
Definition local (u : Z) : outcome Z :=
  let* local_time := platform_localtime (u - epoch) in
  utc_to_seconds (tm_year local_time + 1900) (tm_mon local_time + 1)
    (tm_mday local_time) (tm_hour local_time) (tm_min local_time) (tm_sec local_time).

(** [datetime.fromtimestamp(t)] for a [float] [t], without [tz]: the
    local time of the instant, then the probe 24 hours in the past (and,
    after a change of offset, a second one) that tells whether the local
    time is a repeated one. *)
Definition fromtimestamp (t : spec_float) : outcome datetime :=
  let* tv := timestamp_to_timeval t in
  let timet := fst tv in
  let* tm := platform_localtime timet in
  let y := tm_year tm + 1900 in
  let m := tm_mon tm + 1 in
  let d := tm_mday tm in
  let hh := tm_hour tm in
  let mm := tm_min tm in
  let ss := Z.min 59 (tm_sec tm) in
  let* result_seconds := utc_to_seconds y m d hh mm ss in
  let* probe_seconds := local (epoch + timet - max_fold_seconds) in
  let transition := result_seconds - probe_seconds - max_fold_seconds in
  let* repeated :=
    if transition <? 0 then
      let* probe_seconds := local (epoch + timet + transition) in
      Ok (probe_seconds =? result_seconds)
    else Ok false in
  Ok {| year := y; month := m; day := d;
        hour := hh; minute := mm; second := ss;
        microsecond := snd tv; fold := repeated |}.

(** ** The process: standard output, opened files, logging level *)

Inductive level : Type := DEBUG | INFO | WARN | ERROR.

Record io : Type := {
  stdout : string;
  opened : list string;
  root_level : level
}.

Definition io_start : io :=
  {| stdout := EmptyString; opened := []; root_level := WARN |}.

Definition M (A : Type) : Type := io -> io * outcome A.

Definition ret {A} (a : A) : M A := fun w => (w, Ok a).

Definition raise {A} (e : exn) : M A := fun w => (w, Raise e).

Definition lift {A} (c : outcome A) : M A := fun w => (w, c).

Definition bind {A B} (c : M A) (k : A -> M B) : M B :=
  fun w =>
    match c w with
    | (w', Ok a) => k a w'
    | (w', Raise e) => (w', Raise e)
    end.

Notation "'let!' x := c1 'in' c2" := (bind c1 (fun x => c2))
  (at level 10, x name, c1 at level 100, c2 at level 200).

(** [sys.stdout.write(s)] *)
Definition write (s : string) : M unit :=
  fun w => ({| stdout := stdout w ++ s; opened := opened w;
               root_level := root_level w |}, Ok tt).

(** [print(s)] *)
Definition print (s : string) : M unit := write (s ++ str1 LF).

(** [logging.basicConfig(level=l)] *)
Definition logging_basicConfig (l : level) : M unit :=
  fun w => ({| stdout := stdout w; opened := opened w; root_level := l |}, Ok tt).

(** ** Files

    A file is seen through [json.load]: the document its text decodes
    to, or text that is not JSON. *)

Inductive file : Type :=
  | JsonText (doc : pyval)
  | OtherText.

Variable fs : gmap string file.

(** [open(path, 'r')] *)
Definition open_ (path : string) : M file :=
  fun w =>
    match fs !! path with
    | Some f => ({| stdout := stdout w; opened := opened w ++ [path];
                    root_level := root_level w |}, Ok f)
    | None => (w, Raise (FileNotFoundError path))
    end.

(** [json.load(f)] *)
Definition json_load (f : file) : outcome pyval :=
  match f with
  | JsonText doc => Ok doc
  | OtherText => Raise JSONDecodeError
  end.

(** ** The CSV writer: comma delimiter, minimal quoting, CRLF line ends *)

Definition py_str (v : pyval) : string :=
  match v with
  | PyNone => "None"
  | PyBool true => "True"
  | PyBool false => "False"
  | PyInt n => str_of_int n
  | PyStr s => s
  | _ => py_repr v
  end.

Definition csv_special (c : ascii) : bool :=
  Ascii.eqb c "," || Ascii.eqb c DQUOTE || Ascii.eqb c CR || Ascii.eqb c LF.

Fixpoint needs_quotes (s : string) : bool :=
  match s with
  | EmptyString => false
  | String c s' => csv_special c || needs_quotes s'
  end.

Fixpoint double_quotes (s : string) : string :=
  match s with
  | EmptyString => EmptyString
  | String c s' =>
      if Ascii.eqb c DQUOTE then String DQUOTE (String DQUOTE (double_quotes s'))
      else String c (double_quotes s')
  end.

Definition csv_field (v : pyval) : string :=
  let s := match v with
           | PyNone => EmptyString
           | _ => py_str v
           end in
  if needs_quotes s then String DQUOTE (double_quotes s ++ str1 DQUOTE) else s.

Definition CRLF : string := String CR (str1 LF).

(** The text of one record; a record of one empty field is written as
    a pair of quotes. *)
Definition csv_record (fields : list pyval) : string :=
  (match map csv_field fields with
   | [EmptyString] => String DQUOTE (str1 DQUOTE)
   | texts => String.concat "," texts
   end ++ CRLF)%string.

(** [writer.writerow(fields)] *)
Definition writerow (fields : list pyval) : M unit := write (csv_record fields).

(** [writer.writerows(rows)] *)
Fixpoint writerows (rows : list (list pyval)) : M unit :=
  match rows with
  | [] => ret tt
  | r :: rest => let! _ := writerow r in writerows rest
  end.

(** ** [process_weight_data] *)

Definition is_none (v : pyval) : bool :=
  match v with
  | PyNone => true
  | _ => false
  end.

(** [c1 or c2], the right operand evaluated only when the left is false. *)
Definition or_else (c1 c2 : outcome bool) : outcome bool :=
  let* b := c1 in if b then Ok true else c2.

(** The test of the [if]: the data is not in the expected format. *)
Definition not_expected_format (data : pyval) : outcome bool :=
  or_else (let* v := py_get data "Data Source" in Ok (is_none v))
 (or_else (let* v := getitem_str data "Data Source" in
           let* found := re_search "^raw:com.google.weight" v in
           Ok (negb found))
 (or_else (let* v := py_get data "Data Points" in Ok (is_none v))
          (let* v := getitem_str data "Data Points" in
           let* n := py_len v in
           Ok (n =? 0)))).

(** An output row: the tuple [(date, weight)]. *)
Definition row : Type := string * pyval.

(** The body of the loop, for one data point. *)
Definition row_of_dp (dp : pyval) : outcome row :=
  let* nanos := getitem_str dp "startTimeNanos" in
  let* timestamp := truediv_float nanos float_1e9 in
  let* timestamp := fromtimestamp timestamp in
  let date := strftime "%Y-%m-%d" timestamp in
  let* fit_value := getitem_str dp "fitValue" in
  let* first := getitem_int fit_value 0 in
  let* value := getitem_str first "value" in
  let* weight := getitem_str value "fpVal" in
  Ok (date, weight).

(** The loop over the data points, appending to [output_data]. *)
Fixpoint for_data_points (dps : list pyval) (output_data : list row)
  : outcome (list row) :=
  match dps with
  | [] => Ok output_data
  | dp :: rest =>
      let* r := row_of_dp dp in
      for_data_points rest (output_data ++ [r])
  end.

Definition process_weight_data (input_file : pyval) : M (list row) :=
  let output_data := [] in
  match input_file with
  | PyStr path =>
      let! f := open_ path in
      let! data := lift (json_load f) in
      let! invalid := lift (not_expected_format data) in
      if invalid then
        let! _ := print "No valid weight data found in the input file." in
        ret output_data
      else
        let! points := lift (getitem_str data "Data Points") in
        let! dps := lift (py_iter points) in
        lift (for_data_points dps output_data)
  | _ => raise (TypeError "input_file must be a string path to the JSON file.")
  end.

(** ** [main] *)

(** The command line as [parse_args] returns it: [input_file] is always
    a [str], and [--loglevel] is one of four names or, by default,
    [logging.INFO]. *)
Record args : Type := {
  input_file : string;
  loglevel : level
}.

Definition main (a : args) : M unit :=
  let! _ := logging_basicConfig (loglevel a) in
  let! output_data := process_weight_data (PyStr (input_file a)) in
  match output_data with
  | [] => ret tt
  | _ :: _ =>
      let! _ := writerow [PyStr "date"; PyStr "weight"] in
      writerows (map (fun r : row => [PyStr (fst r); snd r]) output_data)
  end.

(** What the shell sees of a run: the text on standard output and the
    exit status, 1 when an exception reaches the top level. *)
Record run_result : Type := {
  output : string;
  status : Z
}.

Definition run (a : args) : run_result :=
  let '(w, r) := main a io_start in
  {| output := stdout w;
     status := match r with Ok _ => 0 | Raise _ => 1 end |}.

End Platform.

(** * Vocabulary of the properties *)

(** ** The fields of a data point that the conversion reads *)

(** The value under [startTimeNanos], when the data point is an object
    that has the key. *)
Definition start_time (dp : pyval) : option pyval :=
  match dp with
  | PyDict m => m !! "startTimeNanos"
  | _ => None
  end.

(** The value under [fpVal], inside [value], inside the first element
    of the [fitValue] sequence. *)
Definition first_fpval (dp : pyval) : option pyval :=
  match dp with
  | PyDict m =>
      match m !! "fitValue" with
      | Some (PyList (PyDict e :: _)) =>
          match e !! "value" with
          | Some (PyDict v) => v !! "fpVal"
          | _ => None
          end
      | _ => None
      end
  | _ => None
  end.

(** The calendar date that the loop body derives from the value of
    [startTimeNanos]. *)
Definition local_date (tz : Z -> Z) (nanos : pyval) : outcome string :=
  let* t := truediv_float nanos float_1e9 in
  let* dt := fromtimestamp tz t in
  Ok (strftime "%Y-%m-%d" dt).

(** A JSON number: an [int] or a [float]. *)
Definition is_number (v : pyval) : bool :=
  match v with
  | PyInt _ | PyFloat _ => true
  | _ => false
  end.

(** The lines of a text, each with its line feed. *)
Fixpoint lines (s : string) : list string :=
  match s with
  | EmptyString => []
  | String c s' =>
      if Ascii.eqb c LF then str1 LF :: lines s'
      else match lines s' with
           | [] => [str1 c]
           | l :: ls => String c l :: ls
           end
  end.

(** The text of the output line that a data point gives rise to. *)
Definition line_of_dp (tz : Z -> Z) (py_repr : pyval -> string) (dp : pyval) : string :=
  match row_of_dp tz dp with
  | Ok r => csv_record py_repr [PyStr (fst r); snd r]
  | Raise _ => EmptyString
  end.

(** The message of the only exception the program raises itself. *)
Definition contract_error : exn :=
  TypeError "input_file must be a string path to the JSON file.".

(** Coordinated Universal Time as the local zone. *)
Definition utc (_ : Z) : Z := 0.

(** Whether a day number, counted from 1970-01-01, falls in the years
    1..9999 and its date has the ordinal of that day. *)
Definition day_ok (n : Z) : bool :=
  let '(y, m, d) := civil_from_days n in
  (1 <=? y) && (y <=? 9999) && (ymd_to_ord y m d =? n + 719163).

(** The same for the [len] days from the day [lo] on. *)
Definition days_ok (lo : Z) (len : nat) : bool :=
  forallb (fun i => day_ok (lo + Z.of_nat i)) (seq 0 len).

(** A text without line feed. *)
Fixpoint no_lf (s : string) : bool :=
  match s with
  | EmptyString => true
  | String c s' => negb (Ascii.eqb c LF) && no_lf s'
  end.

(** The expression [dp['fitValue'][0]['value']['fpVal']]. *)
Definition fpval_of (dp : pyval) : outcome pyval :=
  let* fit_value := getitem_str dp "fitValue" in
  let* first := getitem_int fit_value 0 in
  let* value := getitem_str first "value" in
  getitem_str value "fpVal".

(** Whether a [Data Source] text is accepted by the search for the
    pattern. *)
Definition source_matches (s : string) : bool :=
  re_match_here (re_items "raw:com.google.weight") s.

(** The documents that the validation turns away with the notice. *)
Inductive invalid_format (m : gmap string pyval) : Prop :=
  | no_source :
      default PyNone (m !! "Data Source") = PyNone -> invalid_format m
  | other_source (s : string) :
      m !! "Data Source" = Some (PyStr s) -> source_matches s = false ->
      invalid_format m
  | no_points (s : string) :
      m !! "Data Source" = Some (PyStr s) -> source_matches s = true ->
      default PyNone (m !! "Data Points") = PyNone -> invalid_format m
  | empty_points (s : string) (v : pyval) :
      m !! "Data Source" = Some (PyStr s) -> source_matches s = true ->
      m !! "Data Points" = Some v -> py_len v = Ok 0 -> invalid_format m.

(** The two fixed lines of text the program can write. *)
Definition notice_line : string :=
  ("No valid weight data found in the input file." ++ str1 LF)%string.

Definition header_line : string := ("date,weight" ++ CRLF)%string.

(** The text of the data rows, one record after the other. *)
Fixpoint csv_text (py_repr : pyval -> string) (rows : list row) : string :=
  match rows with
  | [] => EmptyString
  | r :: rest => (csv_record py_repr [PyStr (fst r); snd r] ++ csv_text py_repr rest)%string
  end.

(** The state of the process after a file was opened, and after a text
    was written to standard output. *)
Definition did_open (path : string) (w : io) : io :=
  {| stdout := stdout w; opened := opened w ++ [path]; root_level := root_level w |}.

Definition did_write (s : string) (w : io) : io :=
  {| stdout := stdout w ++ s; opened := opened w; root_level := root_level w |}.

(** ** Sample data: the export shown at the head of the program *)

Definition sample_source : string :=
  "raw:com.google.weight:com.google.android.apps.fitness:samsung:SM-N9005:d24315b1d42ed56e:user_input".

Definition fit_value (w : pyval) : pyval :=
  PyList [PyDict {[ "value" := PyDict {[ "fpVal" := w ]} ]}].

Definition point (nanos w : pyval) : pyval :=
  PyDict {[ "fitValue" := fit_value w;
            "originDataSourceId" := PyStr sample_source;
            "endTimeNanos" := nanos;
            "dataTypeName" := PyStr "com.google.weight";
            "startTimeNanos" := nanos;
            "modifiedTimeMillis" := PyInt 1451631136423;
            "rawTimestampNanos" := PyInt 0 ]}.

Definition sample_point : pyval := point (PyInt 1451624839273000000) (PyInt 89).

Definition document (source : pyval) (points : pyval) : pyval :=
  PyDict {[ "Data Source" := source; "Data Points" := points ]}.

Definition sample_document : pyval :=
  document (PyStr sample_source) (PyList [sample_point]).

(** A file system with one file. *)
Definition one_file (data : pyval) : gmap string file :=
  {[ "weight.json" := JsonText data ]}.

Definition sample_args : args := {| input_file := "weight.json"; loglevel := INFO |}.

(** A stand-in for [repr]; no sample writes a float or a container. *)
Definition no_repr (_ : pyval) : string := "?".

(** A data point is fit for conversion when it has both fields, its
    start time converts to a local date and its weight is a number. *)
Definition well_formed_point (tz : Z -> Z) (dp : pyval) : Prop :=
  exists t w d,
    start_time dp = Some t /\ first_fpval dp = Some w /\
    local_date tz t = Ok d /\ is_number w = true.

(** A data point is valid when it has both fields and its start time
    converts to a local date. *)
Definition valid_point (tz : Z -> Z) (dp : pyval) : Prop :=
  exists t w d,
    start_time dp = Some t /\ first_fpval dp = Some w /\ local_date tz t = Ok d.

(** Three data points that are not in the order of time, two of them
    equal, and their document. *)
Definition ordered_points : list pyval :=
  [point (PyInt 1451624839273000000) (PyInt 89);
   point (PyInt 86400000000000) (PyInt 70);
   point (PyInt 86400000000000) (PyInt 70)].

Definition ordered_document : pyval :=
  document (PyStr sample_source) (PyList ordered_points).

(** A data point with both fields whose start time, an integer of 401
    digits, is too large for a float. *)
Definition overflowing_point : pyval := point (PyInt (10 ^ 400)) (PyInt 89).

Definition overflowing_document : pyval :=
  document (PyStr sample_source) (PyList [overflowing_point]).

(** An export of another data type. *)
Definition steps_document : pyval :=
  document (PyStr "raw:com.google.step_count.delta") (PyList [sample_point]).

(** The sample point followed by a data point without [fitValue]. *)
Definition truncated_document : pyval :=
  document (PyStr sample_source)
    (PyList [sample_point; PyDict {[ "startTimeNanos" := PyInt 1451624839273000000 ]}]).

(** A computation that does not raise the program's own [TypeError]. *)
Definition foreign {A} (c : outcome A) : Prop := c <> Raise contract_error.

(** The same exception in a computation of another type. *)
Ltac by_foreign H :=
  let E := fresh in intros E; apply H; injection E as ->; reflexivity.

(** Case analysis on every test of a computation built from [Raise]
    and [Ok]. *)
Ltac foreign_by_cases :=
  unfold foreign;
  repeat match goal with
         | |- context [match ?x with _ => _ end] => destruct x
         end;
  discriminate.

(** Two data points that agree on the two fields the loop reads. *)
Definition same_sample (dp1 dp2 : pyval) : Prop :=
  start_time dp1 = start_time dp2 /\ first_fpval dp1 = first_fpval dp2.

(** Two results with the same rows, or both without any. *)
Definition same_rows {A} (c1 c2 : outcome A) : Prop :=
  match c1, c2 with
  | Ok r1, Ok r2 => r1 = r2
  | Raise _, Raise _ => True
  | _, _ => False
  end.

(** The sample point with its bookkeeping fields changed, and a second
    element added to [fitValue]. *)
Definition altered_point : pyval :=
  PyDict {[ "fitValue" := PyList [PyDict {[ "value" := PyDict {[ "fpVal" := PyInt 89 ]} ]};
                                  PyDict {[ "value" := PyDict {[ "fpVal" := PyInt 12 ]} ]}];
            "originDataSourceId" := PyStr "derived";
            "endTimeNanos" := PyInt 0;
            "dataTypeName" := PyStr "other";
            "startTimeNanos" := PyInt 1451624839273000000;
            "modifiedTimeMillis" := PyInt 7 ]}.

(** ** Vocabulary of the further properties *)

(** The documents that pass the validation: an object whose
    [Data Source] is a text the pattern accepts and whose [Data Points]
    has a length other than zero. *)
Definition expected_format (data : pyval) : Prop :=
  exists m s v n,
    data = PyDict m /\
    m !! "Data Source" = Some (PyStr s) /\ source_matches s = true /\
    m !! "Data Points" = Some v /\ py_len v = Ok n /\ n <> 0.

(** A value that [/] takes as a number: an [int], a [bool] or a
    [float]. *)
Definition is_real (v : pyval) : bool :=
  match v with
  | PyInt _ | PyBool _ | PyFloat _ => true
  | _ => false
  end.

(** The error of indexing a text with a text. *)
Definition text_index_error : exn :=
  TypeError "string indices must be integers, not 'str'".

(** The sample point followed by a data point that has only a start
    time, and by a third one that has nothing. *)
Definition failing_points : list pyval :=
  [sample_point; PyDict {[ "startTimeNanos" := PyInt 1451624839273000000 ]}; PyDict ∅].

(** The four ways [process_weight_data] can end on a path: the file is
    missing; the run fails after the file was opened; the validation
    refuses the document and the notice is printed; the data points of
    a document of the expected shape are all converted. *)
Inductive process_outcome (tz : Z -> Z) (fs : gmap string file)
    (path : string) (w : io) : io * outcome (list row) -> Prop :=
  | no_file :
      fs !! path = None ->
      process_outcome tz fs path w (w, Raise (FileNotFoundError path))
  | failed (e : exn) :
      is_Some (fs !! path) ->
      process_outcome tz fs path w (did_open path w, Raise e)
  | refused (data : pyval) :
      fs !! path = Some (JsonText data) ->
      not_expected_format data = Ok true ->
      process_outcome tz fs path w (did_write notice_line (did_open path w), Ok [])
  | converted (m : gmap string pyval) (s : string) (dps : list pyval) (rows : list row) :
      fs !! path = Some (JsonText (PyDict m)) ->
      m !! "Data Source" = Some (PyStr s) -> source_matches s = true ->
      m !! "Data Points" = Some (PyList dps) -> dps <> [] ->
      Forall2 (fun dp r => row_of_dp tz dp = Ok r) dps rows ->
      process_outcome tz fs path w (did_open path w, Ok rows).

(** What [main] and the shell make of the text on standard output and
    of the result of [process_weight_data]. *)
Definition report (py_repr : pyval -> string) (out : string)
    (r : outcome (list row)) : run_result :=
  match r with
  | Raise _ => {| output := out; status := 1 |}
  | Ok [] => {| output := out; status := 0 |}
  | Ok rows => {| output := (out ++ header_line ++ csv_text py_repr rows)%string;
                  status := 0 |}
  end.

(** * Properties *)

(** ** Text *)

Lemma string_app_assoc (a b c : string) : ((a ++ b) ++ c = a ++ (b ++ c))%string.
Proof. induction a as [|x a IH]; simpl; [reflexivity | now rewrite IH]. Qed.

Lemma string_app_nil_r (a : string) : (a ++ EmptyString)%string = a.
Proof. induction a as [|x a IH]; simpl; [reflexivity | now rewrite IH]. Qed.

Lemma no_lf_app (a b : string) : no_lf (a ++ b) = no_lf a && no_lf b.
Proof.
  induction a as [|x a IH]; simpl; [reflexivity|].
  rewrite IH. now rewrite andb_assoc.
Qed.

Lemma needs_quotes_app (a b : string) :
  needs_quotes (a ++ b) = needs_quotes a || needs_quotes b.
Proof.
  induction a as [|x a IH]; simpl; [reflexivity|].
  rewrite IH. now rewrite orb_assoc.
Qed.

Lemma plain_no_lf (s : string) : needs_quotes s = false -> no_lf s = true.
Proof.
  induction s as [|c s IH]; simpl; [reflexivity|].
  intros H. apply orb_false_elim in H as [Hc Hs]. rewrite (IH Hs).
  unfold csv_special in Hc. apply orb_false_elim in Hc as [_ Hlf].
  now rewrite Hlf.
Qed.

(** A text without line feed, followed by a line feed, is one line. *)
Lemma lines_terminated (s rest : string) :
  no_lf s = true ->
  lines (s ++ String LF rest) = (s ++ str1 LF)%string :: lines rest.
Proof.
  induction s as [|c s IH]; simpl; intros H.
  - reflexivity.
  - apply andb_prop in H as [Hc Hs]. apply negb_true_iff in Hc.
    rewrite Hc, (IH Hs). reflexivity.
Qed.

Lemma plain_uint (d : Decimal.uint) : needs_quotes (NilEmpty.string_of_uint d) = false.
Proof. induction d; simpl; auto. Qed.

(** The decimal text of an integer has no character that the CSV
    writer quotes. *)
Lemma plain_str_of_int (n : Z) : needs_quotes (str_of_int n) = false.
Proof.
  unfold str_of_int, NilZero.string_of_int, NilZero.string_of_uint.
  destruct (Z.to_int n) as [d|d]; destruct d; simpl; auto using plain_uint.
Qed.

Lemma plain_zeros (k : nat) : needs_quotes (zeros k) = false.
Proof. induction k; simpl; auto. Qed.

Lemma plain_zfill (k : nat) (n : Z) : needs_quotes (zfill k n) = false.
Proof.
  unfold zfill. rewrite needs_quotes_app, plain_zeros, plain_str_of_int. reflexivity.
Qed.

(** A date in the format of the program is plain text too. *)
Lemma plain_date (dt : datetime) : needs_quotes (strftime "%Y-%m-%d" dt) = false.
Proof.
  cbn [strftime]. unfold strftime_directive. cbn [Ascii.eqb Bool.eqb].
  rewrite needs_quotes_app, plain_str_of_int. cbn [needs_quotes orb].
  repeat (rewrite needs_quotes_app, plain_zfill; cbn [needs_quotes orb]).
  reflexivity.
Qed.

(** ** Reading a data point *)

Lemma raises_Raise {A} (e : exn) : raises (@Raise A e).
Proof. now exists e. Qed.

Lemma raises_not_Ok {A} (c : outcome A) (a : A) : raises c -> c <> Ok a.
Proof. intros [e ->]. discriminate. Qed.

#[local] Hint Resolve raises_Raise : core.

Lemma getitem_start (dp : pyval) :
  match start_time dp with
  | Some t => getitem_str dp "startTimeNanos" = Ok t
  | None => raises (getitem_str dp "startTimeNanos")
  end.
Proof.
  destruct dp; simpl; auto.
  destruct (m !! "startTimeNanos"); auto.
Qed.

Lemma getitem_fpval (dp : pyval) :
  match first_fpval dp with
  | Some w => fpval_of dp = Ok w
  | None => raises (fpval_of dp)
  end.
Proof.
  unfold fpval_of.
  destruct dp as [| | | | |?|m]; simpl; auto.
  destruct (m !! "fitValue") as [fv|]; simpl; auto.
  destruct fv as [| | | |s|l|?]; simpl; auto.
  - destruct s; simpl; auto.
  - destruct l as [|first l]; simpl; auto.
    destruct first as [| | | | |?|e]; simpl; auto.
    destruct (e !! "value") as [value|]; simpl; auto.
    destruct value as [| | | | |?|v]; simpl; auto.
    destruct (v !! "fpVal"); auto.
Qed.

Lemma row_of_dp_unfold (tz : Z -> Z) (dp : pyval) :
  row_of_dp tz dp =
  let* nanos := getitem_str dp "startTimeNanos" in
  let* date := local_date tz nanos in
  let* weight := fpval_of dp in
  Ok (date, weight).
Proof.
  unfold row_of_dp, local_date, fpval_of.
  destruct (getitem_str dp "startTimeNanos") as [nanos|]; simpl; [|reflexivity].
  destruct (truediv_float nanos float_1e9) as [t|]; simpl; [|reflexivity].
  destruct (fromtimestamp tz t) as [dt|]; simpl; [|reflexivity].
  destruct (getitem_str dp "fitValue") as [fv|]; simpl; [|reflexivity].
  destruct (getitem_int fv 0) as [first|]; simpl; [|reflexivity].
  destruct (getitem_str first "value") as [value|]; simpl; [|reflexivity].
  destruct (getitem_str value "fpVal"); reflexivity.
Qed.

(** A row is produced exactly when the data point has both fields and
    the start time converts to a date; the row is that date with the
    value of [fpVal]. *)
Lemma row_of_dp_ok (tz : Z -> Z) (dp t w : pyval) (d : string) :
  start_time dp = Some t -> local_date tz t = Ok d -> first_fpval dp = Some w ->
  row_of_dp tz dp = Ok (d, w).
Proof.
  intros Ht Hd Hw. rewrite row_of_dp_unfold.
  pose proof (getitem_start dp) as H1. rewrite Ht in H1.
  pose proof (getitem_fpval dp) as H2. rewrite Hw in H2.
  rewrite H1. simpl. rewrite Hd. simpl. rewrite H2. reflexivity.
Qed.

Lemma row_of_dp_ok_inv (tz : Z -> Z) (dp : pyval) (r : row) :
  row_of_dp tz dp = Ok r ->
  exists t, start_time dp = Some t /\ local_date tz t = Ok (fst r) /\
            first_fpval dp = Some (snd r).
Proof.
  rewrite row_of_dp_unfold.
  pose proof (getitem_start dp) as H1. pose proof (getitem_fpval dp) as H2.
  destruct (start_time dp) as [t|]; [rewrite H1|destruct H1 as [e ->]; discriminate].
  simpl. destruct (local_date tz t) as [d|] eqn:Hd; simpl; [|discriminate].
  destruct (first_fpval dp) as [w|]; [rewrite H2|destruct H2 as [e ->]; discriminate].
  simpl. intros [= <-]. exists t. simpl. auto.
Qed.

Lemma row_of_dp_missing (tz : Z -> Z) (dp : pyval) :
  start_time dp = None \/ first_fpval dp = None -> raises (row_of_dp tz dp).
Proof.
  intros H. destruct (row_of_dp tz dp) as [r|e] eqn:E; [|auto].
  apply row_of_dp_ok_inv in E as (t & Ht & _ & Hw).
  destruct H as [H|H]; congruence.
Qed.

(** ** The loop *)

Lemma for_data_points_ok (tz : Z -> Z) (dps : list pyval) (rows acc : list row) :
  Forall2 (fun dp r => row_of_dp tz dp = Ok r) dps rows ->
  for_data_points tz dps acc = Ok (acc ++ rows)%list.
Proof.
  intros H. revert acc. induction H as [|dp r dps rows Hr _ IH]; intros acc; simpl.
  - now rewrite app_nil_r.
  - rewrite Hr. simpl. rewrite IH, <- app_assoc. reflexivity.
Qed.

Lemma for_data_points_ok_inv (tz : Z -> Z) (dps : list pyval) (out acc : list row) :
  for_data_points tz dps acc = Ok out ->
  exists rows, out = (acc ++ rows)%list /\
               Forall2 (fun dp r => row_of_dp tz dp = Ok r) dps rows.
Proof.
  revert acc. induction dps as [|dp dps IH]; intros acc; simpl.
  - intros [= <-]. exists []. now rewrite app_nil_r.
  - destruct (row_of_dp tz dp) as [r|] eqn:E; simpl; [|discriminate].
    intros H. apply IH in H as (rows & -> & HF).
    exists (r :: rows). rewrite <- app_assoc. split; [reflexivity|].
    now constructor.
Qed.

(** One data point whose conversion fails makes the whole loop fail. *)
Lemma for_data_points_raises (tz : Z -> Z) (dps : list pyval) (acc : list row) :
  Exists (fun dp => raises (row_of_dp tz dp)) dps ->
  raises (for_data_points tz dps acc).
Proof.
  intros H. destruct (for_data_points tz dps acc) as [out|e] eqn:E; [|auto].
  apply for_data_points_ok_inv in E as (rows & _ & HF).
  exfalso. induction HF as [|dp r dps rows Hr _ IH].
  - inversion H.
  - inversion H as [? ? Hd|? ? Hd]; subst; [|auto].
    now apply (raises_not_Ok _ r) in Hd.
Qed.

(** ** Validation *)

Lemma re_search_source (s : string) :
  re_search "^raw:com.google.weight" (PyStr s) = Ok (source_matches s).
Proof. reflexivity. Qed.

#[local] Arguments re_search : simpl never.

Lemma invalid_format_test (m : gmap string pyval) :
  invalid_format m -> not_expected_format (PyDict m) = Ok true.
Proof.
  unfold not_expected_format, or_else.
  intros [H|s Hs Hm|s Hs Hm Hp|s v Hs Hm Hp Hl]; cbn.
  - now rewrite H.
  - rewrite Hs. cbn. now rewrite re_search_source, Hm.
  - rewrite Hs. cbn. rewrite re_search_source, Hm. cbn. now rewrite Hp.
  - rewrite Hs, Hp. cbn. rewrite re_search_source, Hm. cbn.
    destruct v; try discriminate; cbn in *; injection Hl as Hl; now rewrite Hl.
Qed.

Lemma valid_format_test (m : gmap string pyval) (s : string) (dps : list pyval) :
  m !! "Data Source" = Some (PyStr s) -> source_matches s = true ->
  m !! "Data Points" = Some (PyList dps) -> dps <> [] ->
  not_expected_format (PyDict m) = Ok false.
Proof.
  intros Hs Hm Hp Hne. unfold not_expected_format, or_else. cbn.
  rewrite Hs, Hp. cbn. rewrite re_search_source, Hm. cbn.
  destruct dps; [contradiction | reflexivity].
Qed.

(** ** The program on a loaded document *)

Lemma process_not_json (tz : Z -> Z) (fs : gmap string file) (path : string) (w : io) :
  fs !! path = Some OtherText ->
  process_weight_data tz fs (PyStr path) w = (did_open path w, Raise JSONDecodeError).
Proof.
  intros Hf. unfold process_weight_data, bind, open_. now rewrite Hf.
Qed.

Lemma process_loaded (tz : Z -> Z) (fs : gmap string file)
    (path : string) (data : pyval) (w : io) :
  fs !! path = Some (JsonText data) ->
  process_weight_data tz fs (PyStr path) w =
  match not_expected_format data with
  | Raise e => (did_open path w, Raise e)
  | Ok true => (did_write notice_line (did_open path w), Ok [])
  | Ok false =>
      (did_open path w,
       let* points := getitem_str data "Data Points" in
       let* dps := py_iter points in
       for_data_points tz dps [])
  end.
Proof.
  intros Hf. unfold process_weight_data, bind, open_, lift. rewrite Hf. simpl.
  destruct (not_expected_format data) as [[|]|]; simpl; try reflexivity.
  destruct (getitem_str data "Data Points") as [points|]; simpl; [|reflexivity].
  destruct (py_iter points); reflexivity.
Qed.

Lemma writerows_text (py_repr : pyval -> string) (rows : list row) (w : io) :
  writerows py_repr (map (fun r : row => [PyStr (fst r); snd r]) rows) w =
  (did_write (csv_text py_repr rows) w, Ok tt).
Proof.
  revert w. induction rows as [|r rows IH]; intros w; simpl.
  - unfold ret, did_write. rewrite string_app_nil_r. now destruct w.
  - unfold bind, writerow, write. rewrite IH. unfold did_write. simpl.
    now rewrite string_app_assoc.
Qed.

(** What a run shows, from what [process_weight_data] does. *)
Lemma run_of_process (tz : Z -> Z) (py_repr : pyval -> string)
    (fs : gmap string file) (a : args) :
  run tz py_repr fs a =
  match process_weight_data tz fs (PyStr (input_file a))
          {| stdout := EmptyString; opened := []; root_level := loglevel a |} with
  | (w, Raise _) => {| output := stdout w; status := 1 |}
  | (w, Ok []) => {| output := stdout w; status := 0 |}
  | (w, Ok rows) =>
      {| output := (stdout w ++ header_line ++ csv_text py_repr rows)%string;
         status := 0 |}
  end.
Proof.
  unfold run, main, bind, logging_basicConfig. cbn [stdout opened io_start].
  destruct (process_weight_data tz fs (PyStr (input_file a)) _) as [w [[|r rows]|e]];
    try reflexivity.
  unfold writerow, write.
  rewrite (writerows_text py_repr (r :: rows)). unfold did_write. cbn [stdout].
  rewrite string_app_assoc. reflexivity.
Qed.

(** ** Dates *)

(** Only the calendar fields of a date-time reach the formatted date:
    the time of day is dropped. *)
Lemma strftime_date_only (dt1 dt2 : datetime) :
  year dt1 = year dt2 -> month dt1 = month dt2 -> day dt1 = day dt2 ->
  strftime "%Y-%m-%d" dt1 = strftime "%Y-%m-%d" dt2.
Proof.
  intros Hy Hm Hd. cbn [strftime]. unfold strftime_directive.
  cbn [Ascii.eqb Bool.eqb]. now rewrite Hy, Hm, Hd.
Qed.

(** The reference timestamp as seconds and microseconds: the instant
    05:07:19.273 UTC on 2016-01-01, day 16801 of the epoch. *)
Lemma reference_timestamp_seconds :
  (let* t := truediv_float (PyInt 1451624839273000000) float_1e9 in
   timestamp_to_timeval t) = Ok (1451624839, 273000).
Proof. vm_compute. reflexivity. Qed.

Lemma days_ok_day (lo : Z) (len : nat) (n : Z) :
  days_ok lo len = true -> lo <= n < lo + Z.of_nat len -> day_ok n = true.
Proof.
  unfold days_ok. rewrite forallb_forall. intros H Hn.
  specialize (H (Z.to_nat (n - lo))).
  replace (lo + Z.of_nat (Z.to_nat (n - lo))) with n in H by lia.
  apply H, in_seq. lia.
Qed.

Lemma utc_offset_bounds (tz : Z -> Z) (t : Z) : - 89999 <= utc_offset tz t <= 93599.
Proof. unfold utc_offset. lia. Qed.

Lemma utc_offset_within (tz : Z -> Z) (t : Z) :
  - 89999 <= tz t <= 93599 -> utc_offset tz t = tz t.
Proof. unfold utc_offset. lia. Qed.

(** On a day of the years 1..9999 the local time is found, and its
    seconds from 0001-01-01 are those of the instant moved by the
    offset. *)
Lemma local_time_of_day (tz : Z -> Z) (t : Z) :
  day_ok ((t + utc_offset tz t) / 86400) = true ->
  exists lt,
    platform_localtime tz t = Ok lt /\
    (tm_year lt + 1900, tm_mon lt + 1, tm_mday lt) =
      civil_from_days ((t + utc_offset tz t) / 86400) /\
    utc_to_seconds (tm_year lt + 1900) (tm_mon lt + 1) (tm_mday lt)
      (tm_hour lt) (tm_min lt) (Z.min 59 (tm_sec lt)) = Ok (epoch + t + utc_offset tz t) /\
    utc_to_seconds (tm_year lt + 1900) (tm_mon lt + 1) (tm_mday lt)
      (tm_hour lt) (tm_min lt) (tm_sec lt) = Ok (epoch + t + utc_offset tz t).
Proof.
  unfold platform_localtime, day_ok.
  set (loc := t + utc_offset tz t).
  destruct (civil_from_days (loc / 86400)) as [[y m] d].
  intros H. apply andb_prop in H as [H Hord]. apply andb_prop in H as [Hy1 Hy2].
  apply Z.leb_le in Hy1, Hy2. apply Z.eqb_eq in Hord.
  assert (Hfit : (- 2 ^ 31 <=? y - 1900) && (y - 1900 <? 2 ^ 31) = true).
  { apply andb_true_intro. split; [apply Z.leb_le | apply Z.ltb_lt]; lia. }
  rewrite Hfit. eexists. split; [reflexivity|]. cbn [tm_year tm_mon tm_mday tm_hour tm_min tm_sec].
  replace (y - 1900 + 1900) with y by lia. replace (m - 1 + 1) with m by lia.
  split; [reflexivity|].
  assert (Hyear : (y <? 1) || (9999 <? y) = false).
  { apply orb_false_intro; apply Z.ltb_ge; lia. }
  unfold utc_to_seconds. rewrite Hyear, Hord.
  replace (Z.min 59 (loc mod 86400 mod 60)) with (loc mod 86400 mod 60)
    by (pose proof (Z.mod_pos_bound (loc mod 86400) 60 ltac:(lia)); lia).
  assert (Hsec : (((loc / 86400 + 719163) * 24 + loc mod 86400 / 3600) * 60 +
                  loc mod 86400 mod 3600 / 60) * 60 + loc mod 86400 mod 60 = epoch + loc).
  { unfold epoch. Z.to_euclidean_division_equations. lia. }
  rewrite Hsec. subst loc. split; f_equal; lia.
Qed.

(** When the days around an instant fall in the years 1..9999, the
    probes succeed as well and the date is that of the local day. *)
Lemma fromtimestamp_date (tz : Z -> Z) (t : spec_float) (sec us : Z) :
  timestamp_to_timeval t = Ok (sec, us) ->
  (forall u, sec - 300000 <= u <= sec ->
             day_ok ((u + utc_offset tz u) / 86400) = true) ->
  exists dt,
    fromtimestamp tz t = Ok dt /\
    (year dt, month dt, day dt) = civil_from_days ((sec + utc_offset tz sec) / 86400).
Proof.
  intros Htv Hdays. unfold fromtimestamp. rewrite Htv. cbn [obind fst snd].
  destruct (local_time_of_day tz sec) as (lt & -> & Hd & Hs & _); [apply Hdays; lia|].
  cbn [obind]. rewrite Hs. cbn [obind]. unfold local.
  replace (epoch + sec - max_fold_seconds - epoch) with (sec - 86400)
    by (unfold max_fold_seconds; lia).
  destruct (local_time_of_day tz (sec - 86400)) as (lt0 & -> & _ & _ & Hs0);
    [apply Hdays; lia|].
  cbn [obind]. rewrite Hs0. cbn [obind].
  pose proof (utc_offset_bounds tz sec) as B1.
  pose proof (utc_offset_bounds tz (sec - 86400)) as B0.
  set (transition := epoch + sec + utc_offset tz sec -
                     (epoch + (sec - 86400) + utc_offset tz (sec - 86400)) -
                     max_fold_seconds).
  assert (Ht : - 183598 <= transition).
  { subst transition. unfold max_fold_seconds. lia. }
  destruct (transition <? 0) eqn:E.
  - apply Z.ltb_lt in E.
    replace (epoch + sec + transition - epoch) with (sec + transition) by lia.
    destruct (local_time_of_day tz (sec + transition)) as (lt2 & -> & _ & _ & Hs2);
      [apply Hdays; lia|].
    cbn [obind]. rewrite Hs2. cbn [obind]. eexists. split; [reflexivity|]. exact Hd.
  - cbn [obind]. eexists. split; [reflexivity|]. exact Hd.
Qed.

(** C4. A data point whose [startTimeNanos] is 1451624839273000000 is
    given the date 2016-01-01 when the local time zone is pinned to an
    offset between -05:07:19 and +18:52:40 at that instant (UTC
    included): the nanoseconds are divided by 1e9, the seconds are read
    as a local date and time, and the date is formatted as YYYY-MM-DD,
    the time of day being dropped. *)
Theorem reference_timestamp_date (tz : Z -> Z) (dp : pyval) :
  -18439 <= tz 1451624839 <= 67960 ->
  start_time dp = Some (PyInt 1451624839273000000) ->
  local_date tz (PyInt 1451624839273000000) = Ok "2016-01-01" /\
  forall w, first_fpval dp = Some w -> row_of_dp tz dp = Ok ("2016-01-01", w).
Proof.
  intros Htz Hdp.
  assert (Hdate : local_date tz (PyInt 1451624839273000000) = Ok "2016-01-01").
  { unfold local_date.
    pose proof reference_timestamp_seconds as E.
    destruct (truediv_float (PyInt 1451624839273000000) float_1e9) as [t|];
      [|discriminate].
    cbn [obind] in E |- *.
    assert (Hwin : days_ok 16790 20 = true) by (vm_compute; reflexivity).
    destruct (fromtimestamp_date tz t _ _ E) as (dt & -> & Hd).
    { intros u Hu. pose proof (utc_offset_bounds tz u).
      apply (days_ok_day 16790 20 _ Hwin).
      split; [apply Z.div_le_lower_bound | apply Z.div_lt_upper_bound]; lia. }
    cbn [obind]. rewrite (utc_offset_within tz) in Hd by lia.
    assert (E3 : (1451624839 + tz 1451624839) / 86400 = 16801).
    { symmetry. apply Z.div_unique with (r := 1451624839 + tz 1451624839 - 16801 * 86400); lia. }
    rewrite E3 in Hd. injection Hd as Hy Hm Hday. f_equal.
    exact (strftime_date_only dt
             {| year := 2016; month := 1; day := 1; hour := 0; minute := 0;
                second := 0; microsecond := 0; fold := false |} Hy Hm Hday). }
  split; [exact Hdate|].
  intros w Hw. exact (row_of_dp_ok tz dp _ w _ Hdp Hdate Hw).
Qed.

(** The same instant falls on the day before in a zone six hours west
    of Greenwich: the date does depend on the zone. *)
Example reference_timestamp_west :
  local_date (fun _ => -21600) (PyInt 1451624839273000000) = Ok "2015-12-31".
Proof. vm_compute. reflexivity. Qed.

Lemma local_date_plain (tz : Z -> Z) (t : pyval) (d : string) :
  local_date tz t = Ok d -> needs_quotes d = false.
Proof.
  unfold local_date.
  destruct (truediv_float t float_1e9) as [x|]; cbn [obind]; [|discriminate].
  destruct (fromtimestamp tz x) as [dt|]; cbn [obind]; [|discriminate].
  intros [= <-]. apply plain_date.
Qed.

(** ** Records *)

(** A date and a weight whose texts are plain are written as they are,
    separated by a comma. *)
Lemma csv_record_plain (py_repr : pyval -> string) (d : string) (w : pyval) :
  needs_quotes d = false -> needs_quotes (py_str py_repr w) = false ->
  w <> PyNone ->
  csv_record py_repr [PyStr d; w] = (d ++ "," ++ py_str py_repr w ++ CRLF)%string.
Proof.
  intros Hd Hw Hn. unfold csv_record. cbn [map].
  assert (E1 : csv_field py_repr (PyStr d) = d).
  { unfold csv_field. cbn [py_str]. now rewrite Hd. }
  assert (E2 : csv_field py_repr w = py_str py_repr w).
  { unfold csv_field. destruct w; try contradiction; now rewrite Hw. }
  rewrite E1, E2. cbn [String.concat].
  destruct d; cbn; now rewrite ?string_app_assoc.
Qed.

Lemma Forall2_In_right {A B} (P : A -> B -> Prop) (l : list A) (k : list B) (y : B) :
  Forall2 P l k -> In y k -> exists x, In x l /\ P x y.
Proof.
  intros H. induction H as [|x y' l k Hxy _ IH]; intros Hin; [destruct Hin|].
  destruct Hin as [->|Hin].
  - exists x. split; [now left | exact Hxy].
  - destruct (IH Hin) as (x' & Hx' & HP). exists x'. split; [now right | exact HP].
Qed.

Lemma valid_rows (tz : Z -> Z) (dps : list pyval) :
  Forall (valid_point tz) dps ->
  exists rows,
    Forall2 (fun dp r => row_of_dp tz dp = Ok r /\ first_fpval dp = Some (snd r)) dps rows.
Proof.
  intros H. induction H as [|dp dps (t & w & d & Ht & Hw & Hd) _ [rows HF]].
  - exists []. constructor.
  - exists ((d, w) :: rows). constructor; [|exact HF].
    split; [exact (row_of_dp_ok tz dp t w d Ht Hd Hw) | exact Hw].
Qed.

(** C5. For a document that passes the validation and whose data points
    are valid, [process_weight_data] returns one row per data point, in
    order, and the weight of each row is the value found under [fpVal]
    in the first element of the [fitValue] sequence of its data point,
    as it is; [main] writes the header and then the record of each of
    these rows, and the record of a row whose weight is an integer is
    its date, a comma and the integer in decimal. *)
Theorem weight_unmodified (tz : Z -> Z) (py_repr : pyval -> string)
    (fs : gmap string file) (a : args)
    (m : gmap string pyval) (s : string) (dps : list pyval) :
  fs !! input_file a = Some (JsonText (PyDict m)) ->
  m !! "Data Source" = Some (PyStr s) -> source_matches s = true ->
  m !! "Data Points" = Some (PyList dps) -> dps <> [] ->
  Forall (valid_point tz) dps ->
  exists rows,
    (forall w, process_weight_data tz fs (PyStr (input_file a)) w =
               (did_open (input_file a) w, Ok rows)) /\
    Forall2 (fun dp r => row_of_dp tz dp = Ok r /\ first_fpval dp = Some (snd r)) dps rows /\
    run tz py_repr fs a =
      {| output := (("date,weight" ++ CRLF) ++ csv_text py_repr rows)%string;
         status := 0 |} /\
    (forall r n, In r rows -> snd r = PyInt n ->
       csv_record py_repr [PyStr (fst r); snd r] =
       (fst r ++ "," ++ str_of_int n ++ CRLF)%string).
Proof.
  intros Hfile Hs Hm Hp Hne Hvalid.
  destruct (valid_rows tz dps Hvalid) as [rows HF].
  assert (HF' : Forall2 (fun dp r => row_of_dp tz dp = Ok r) dps rows).
  { eapply Forall2_impl; [exact HF|]. now intros dp r [H _]. }
  assert (Hproc : forall w, process_weight_data tz fs (PyStr (input_file a)) w =
                            (did_open (input_file a) w, Ok rows)).
  { intros w. rewrite (process_loaded tz fs _ _ _ Hfile).
    rewrite (valid_format_test m s dps Hs Hm Hp Hne).
    cbn [getitem_str]. rewrite Hp. cbn [obind py_iter].
    now rewrite (for_data_points_ok tz dps rows [] HF'). }
  exists rows. split; [exact Hproc|]. split; [exact HF|]. split.
  - rewrite run_of_process, Hproc.
    destruct rows as [|r rows]; [|reflexivity].
    inversion HF; subst; contradiction.
  - intros r n Hin Hn.
    destruct (Forall2_In_right _ dps rows r HF' Hin) as (dp & _ & Hrow).
    apply row_of_dp_ok_inv in Hrow as (t & _ & Hd & _).
    rewrite Hn. rewrite csv_record_plain;
      [reflexivity| |apply plain_str_of_int|discriminate].
    eapply local_date_plain; eassumption.
Qed.

(** ** The output for a well-formed document *)

Lemma lines_crlf (s rest : string) :
  no_lf s = true ->
  lines ((s ++ CRLF) ++ rest) = (s ++ CRLF)%string :: lines rest.
Proof.
  intros H.
  replace ((s ++ CRLF) ++ rest)%string with ((s ++ str1 CR) ++ String LF rest)%string
    by (unfold CRLF, str1; now rewrite !string_app_assoc).
  rewrite lines_terminated.
  - unfold CRLF, str1. now rewrite string_app_assoc.
  - rewrite no_lf_app, H. reflexivity.
Qed.

Lemma number_plain (py_repr : pyval -> string) (w : pyval) :
  (forall x, needs_quotes (py_repr (PyFloat x)) = false) ->
  is_number w = true ->
  needs_quotes (py_str py_repr w) = false /\ w <> PyNone.
Proof.
  intros Hf Hw. destruct w; try discriminate; cbn [py_str]; split;
    auto using plain_str_of_int; discriminate.
Qed.

Lemma lines_record (py_repr : pyval -> string) (d : string) (w : pyval) (rest : string) :
  needs_quotes d = false -> needs_quotes (py_str py_repr w) = false -> w <> PyNone ->
  lines (csv_record py_repr [PyStr d; w] ++ rest) =
  csv_record py_repr [PyStr d; w] :: lines rest.
Proof.
  intros Hd Hw Hn. rewrite csv_record_plain by assumption.
  rewrite <- !string_app_assoc. apply lines_crlf.
  rewrite !no_lf_app, (plain_no_lf _ Hd), (plain_no_lf _ Hw). reflexivity.
Qed.

Lemma well_formed_rows (tz : Z -> Z) (py_repr : pyval -> string) (dps : list pyval) :
  (forall x, needs_quotes (py_repr (PyFloat x)) = false) ->
  Forall (well_formed_point tz) dps ->
  exists rows,
    Forall2 (fun dp r => row_of_dp tz dp = Ok r) dps rows /\
    lines (csv_text py_repr rows) = map (line_of_dp tz py_repr) dps.
Proof.
  intros Hf H. induction H as [|dp dps (t & w & d & Ht & Hw & Hd & Hn) _ (rows & HF & HL)].
  - exists []. split; [constructor | reflexivity].
  - pose proof (row_of_dp_ok tz dp t w d Ht Hd Hw) as Hrow.
    exists ((d, w) :: rows). split; [now constructor|].
    destruct (number_plain py_repr w Hf Hn) as [Hp Hnone].
    cbn [csv_text map fst snd]. unfold line_of_dp at 1. rewrite Hrow. cbn [fst snd].
    rewrite lines_record, HL; eauto using local_date_plain.
Qed.

(** C1, amended. For a document whose [Data Source] matches the pattern
    and whose [Data Points] is a non-empty list of N data points, each
    having [startTimeNanos] and [fitValue[0].value.fpVal], where every
    start time converts to a local date and every weight is a number,
    the program exits with status 0 and writes exactly N+1 lines: the
    header [date,weight] and then, in the order of the input, the line
    of each data point.  The text that [repr] gives a float is taken to
    hold no comma, quote, carriage return or line feed. *)
Theorem well_formed_output (tz : Z -> Z) (py_repr : pyval -> string)
    (fs : gmap string file) (a : args)
    (m : gmap string pyval) (s : string) (dps : list pyval) :
  (forall x, needs_quotes (py_repr (PyFloat x)) = false) ->
  fs !! input_file a = Some (JsonText (PyDict m)) ->
  m !! "Data Source" = Some (PyStr s) -> source_matches s = true ->
  m !! "Data Points" = Some (PyList dps) -> dps <> [] ->
  Forall (well_formed_point tz) dps ->
  status (run tz py_repr fs a) = 0 /\
  lines (output (run tz py_repr fs a)) =
    ("date,weight" ++ CRLF)%string :: map (line_of_dp tz py_repr) dps /\
  length (lines (output (run tz py_repr fs a))) = S (length dps).
Proof.
  intros Hf Hfile Hs Hm Hp Hne Hwf.
  destruct (well_formed_rows tz py_repr dps Hf Hwf) as (rows & HF & HL).
  assert (Hout : run tz py_repr fs a =
                 {| output := (header_line ++ csv_text py_repr rows)%string; status := 0 |}).
  { rewrite run_of_process, (process_loaded tz fs _ _ _ Hfile).
    rewrite (valid_format_test m s dps Hs Hm Hp Hne).
    cbn [getitem_str]. rewrite Hp. cbn [obind py_iter].
    rewrite (for_data_points_ok tz dps rows [] HF). cbn [app].
    destruct rows as [|r rows]; [|reflexivity].
    inversion HF; subst; contradiction. }
  rewrite Hout. cbn [status output].
  assert (Hlines : lines (header_line ++ csv_text py_repr rows) =
                   ("date,weight" ++ CRLF)%string :: map (line_of_dp tz py_repr) dps).
  { unfold header_line. rewrite lines_crlf by reflexivity. now rewrite HL. }
  split; [reflexivity|]. split; [exact Hlines|].
  rewrite Hlines. cbn [length]. now rewrite length_map.
Qed.

(** Three data points out of the order of time, two of them equal, in
    UTC: four lines, in the order of the input. *)
Lemma well_formed_output_sample :
  status (run utc no_repr (one_file ordered_document) sample_args) = 0 /\
  lines (output (run utc no_repr (one_file ordered_document) sample_args)) =
    ("date,weight" ++ CRLF)%string :: map (line_of_dp utc no_repr) ordered_points /\
  length (lines (output (run utc no_repr (one_file ordered_document) sample_args))) =
    S (length ordered_points).
Proof.
  apply (well_formed_output utc no_repr (one_file ordered_document) sample_args
           {[ "Data Source" := PyStr sample_source; "Data Points" := PyList ordered_points ]}
           sample_source ordered_points).
  - intros x. reflexivity.
  - vm_compute. reflexivity.
  - vm_compute. reflexivity.
  - vm_compute. reflexivity.
  - vm_compute. reflexivity.
  - discriminate.
  - repeat constructor.
    + exists (PyInt 1451624839273000000), (PyInt 89), "2016-01-01". vm_compute. auto.
    + exists (PyInt 86400000000000), (PyInt 70), "1970-01-02". vm_compute. auto.
    + exists (PyInt 86400000000000), (PyInt 70), "1970-01-02". vm_compute. auto.
Defined.

(** The lines of that run, as text. *)
Example ordered_points_lines :
  map (line_of_dp utc no_repr) ordered_points =
  [("2016-01-01,89" ++ CRLF)%string; ("1970-01-02,70" ++ CRLF)%string;
   ("1970-01-02,70" ++ CRLF)%string].
Proof. vm_compute. reflexivity. Qed.

(** A document of one data point that has both fields, under a matching
    [Data Source]: the division of its start time raises
    [OverflowError], the run ends with status 1 and no line is written,
    not two. *)
Lemma overflowing_start_time_aborts :
  String.prefix "raw:com.google.weight" sample_source = true /\
  start_time overflowing_point = Some (PyInt (10 ^ 400)) /\
  first_fpval overflowing_point = Some (PyInt 89) /\
  row_of_dp utc overflowing_point = Raise OverflowError /\
  run utc no_repr (one_file overflowing_document) sample_args =
    {| output := EmptyString; status := 1 |} /\
  length (lines (output (run utc no_repr (one_file overflowing_document) sample_args)))
    <> 2%nat.
Proof. vm_compute. repeat split; discriminate. Qed.

(** The first second of the year 10000, in UTC: the division succeeds
    but no [datetime] holds the year. *)
Example year_10000_refused :
  start_time (point (PyInt 253402300800000000000) (PyInt 89)) =
    Some (PyInt 253402300800000000000) /\
  local_date utc (PyInt 253402300799000000000) = Ok "9999-12-31" /\
  row_of_dp utc (point (PyInt 253402300800000000000) (PyInt 89)) = Raise ValueError.
Proof. vm_compute. repeat split. Qed.

(** Noon of the first day of the year 1, in UTC: the probe of 24 hours
    before falls in the year 0 and the conversion is refused; the day
    after is converted, and its year is written without padding. *)
Example first_day_of_year_1_refused :
  local_date utc (PyInt (-62135553600000000000)) = Raise ValueError /\
  local_date utc (PyInt (-62135467200000000000)) = Ok "1-01-02" /\
  local_date utc (PyInt (-30625000000000000000)) = Ok "999-07-13".
Proof. vm_compute. repeat split. Qed.

(** A weight that is a text with a line feed is quoted, and its record
    spans two lines: the count of lines is that of the data points only
    when the weights are numbers. *)
Example text_weight_spans_lines :
  length (lines (output (run utc no_repr
     (one_file (document (PyStr sample_source)
        (PyList [point (PyInt 1451624839273000000) (PyStr (String LF "kg"))])))
     sample_args))) = 3%nat.
Proof. vm_compute. reflexivity. Qed.

(** The order of the input is kept, and equal samples are kept apart. *)
Example order_and_duplicates_kept :
  output (run utc no_repr
    (one_file (document (PyStr sample_source)
       (PyList [point (PyInt 1451624839273000000) (PyInt 89);
                point (PyInt 86400000000000) (PyInt 70);
                point (PyInt 86400000000000) (PyInt 70)])))
    sample_args) =
  ("date,weight" ++ CRLF ++ "2016-01-01,89" ++ CRLF ++
   "1970-01-02,70" ++ CRLF ++ "1970-01-02,70" ++ CRLF)%string.
Proof. vm_compute. reflexivity. Qed.

(** ** Documents that the validation turns away *)

Lemma invalid_format_process (tz : Z -> Z) (fs : gmap string file)
    (path : string) (m : gmap string pyval) (w : io) :
  fs !! path = Some (JsonText (PyDict m)) -> invalid_format m ->
  process_weight_data tz fs (PyStr path) w =
  (did_write notice_line (did_open path w), Ok []).
Proof.
  intros Hfile Hm.
  now rewrite (process_loaded tz fs _ _ _ Hfile), (invalid_format_test m Hm).
Qed.

Lemma invalid_format_run (tz : Z -> Z) (py_repr : pyval -> string)
    (fs : gmap string file) (a : args) (m : gmap string pyval) :
  fs !! input_file a = Some (JsonText (PyDict m)) -> invalid_format m ->
  run tz py_repr fs a = {| output := notice_line; status := 0 |}.
Proof.
  intros Hfile Hm.
  now rewrite run_of_process, (invalid_format_process tz fs _ m _ Hfile Hm).
Qed.

(** C2, amended. When the validation fails (the [Data Source] is
    missing, null or does not match, or the [Data Points] are missing,
    null or empty), no row is produced and neither the header nor a data
    row is written; the notice is the one line on standard output, where
    the program prints it, and the exit status is 0. *)
Theorem invalid_format_output (tz : Z -> Z) (py_repr : pyval -> string)
    (fs : gmap string file) (a : args) (m : gmap string pyval) :
  fs !! input_file a = Some (JsonText (PyDict m)) -> invalid_format m ->
  (forall w, snd (process_weight_data tz fs (PyStr (input_file a)) w) = Ok []) /\
  run tz py_repr fs a =
    {| output := ("No valid weight data found in the input file." ++ str1 LF)%string;
       status := 0 |}.
Proof.
  intros Hfile Hm. split.
  - intros w. now rewrite (invalid_format_process tz fs _ m w Hfile Hm).
  - exact (invalid_format_run tz py_repr fs a m Hfile Hm).
Qed.

(** An export of step counts is answered with the notice alone. *)
Lemma invalid_format_output_steps :
  (forall w, snd (process_weight_data utc (one_file steps_document)
                    (PyStr (input_file sample_args)) w) = Ok []) /\
  run utc no_repr (one_file steps_document) sample_args =
    {| output := ("No valid weight data found in the input file." ++ str1 LF)%string;
       status := 0 |}.
Proof.
  apply (invalid_format_output utc no_repr (one_file steps_document) sample_args
           {[ "Data Source" := PyStr "raw:com.google.step_count.delta";
              "Data Points" := PyList [sample_point] ]}).
  - vm_compute. reflexivity.
  - apply (other_source _ "raw:com.google.step_count.delta"); vm_compute; reflexivity.
Defined.

(** The notice of a run on a document without [Data Source] is text on
    standard output: the stream is not left empty. *)
Lemma notice_written_to_stdout :
  default PyNone ((∅ : gmap string pyval) !! "Data Source") = PyNone /\
  output (run utc no_repr (one_file (PyDict ∅)) sample_args) =
    ("No valid weight data found in the input file." ++ str1 LF)%string /\
  output (run utc no_repr (one_file (PyDict ∅)) sample_args) <> EmptyString.
Proof. vm_compute. repeat split; discriminate. Qed.

(** C3, at an input where the code departs from it.  The dots of the
    pattern are not escaped, so a [Data Source] that does not start with
    the text [raw:com.google.weight] but differs from it only where the
    dots stand is accepted, and a row is written. *)
Example unescaped_dot_accepts_other_source :
  String.prefix "raw:com.google.weight" "raw:com-google-weight" = false /\
  run utc no_repr
      (one_file (document (PyStr "raw:com-google-weight") (PyList [sample_point])))
      sample_args =
    {| output := ("date,weight" ++ CRLF ++ "2016-01-01,89" ++ CRLF)%string;
       status := 0 |}.
Proof. vm_compute. split; reflexivity. Qed.

(** A [Data Source] text that the pattern does not match yields no row,
    the notice and exit status 0. *)
Lemma other_source_notice (tz : Z -> Z) (py_repr : pyval -> string)
    (fs : gmap string file) (a : args) (m : gmap string pyval) (s : string) :
  fs !! input_file a = Some (JsonText (PyDict m)) ->
  m !! "Data Source" = Some (PyStr s) -> source_matches s = false ->
  run tz py_repr fs a = {| output := notice_line; status := 0 |}.
Proof. intros Hfile Hs Hm. eapply invalid_format_run; eauto using other_source. Qed.

(** C6. A document whose [Data Source] matches and whose [Data Points]
    is an empty sequence yields no row; the notice is printed and the
    exit status is 0. *)
Theorem empty_points_notice (tz : Z -> Z) (py_repr : pyval -> string)
    (fs : gmap string file) (a : args) (m : gmap string pyval) (s : string) :
  fs !! input_file a = Some (JsonText (PyDict m)) ->
  m !! "Data Source" = Some (PyStr s) -> source_matches s = true ->
  m !! "Data Points" = Some (PyList []) ->
  (forall w, process_weight_data tz fs (PyStr (input_file a)) w =
             (did_write ("No valid weight data found in the input file." ++ str1 LF)
                        (did_open (input_file a) w), Ok [])) /\
  run tz py_repr fs a =
    {| output := ("No valid weight data found in the input file." ++ str1 LF)%string;
       status := 0 |}.
Proof.
  intros Hfile Hs Hm Hp.
  assert (Hbad : invalid_format m) by (now apply (empty_points m s (PyList []))).
  split.
  - intros w. exact (invalid_format_process tz fs _ m w Hfile Hbad).
  - exact (invalid_format_run tz py_repr fs a m Hfile Hbad).
Qed.

(** The sample source with no data point. *)
Lemma empty_points_notice_sample :
  (forall w, process_weight_data utc (one_file (document (PyStr sample_source) (PyList [])))
               (PyStr (input_file sample_args)) w =
             (did_write ("No valid weight data found in the input file." ++ str1 LF)
                        (did_open (input_file sample_args) w), Ok [])) /\
  run utc no_repr (one_file (document (PyStr sample_source) (PyList []))) sample_args =
    {| output := ("No valid weight data found in the input file." ++ str1 LF)%string;
       status := 0 |}.
Proof.
  apply (empty_points_notice utc no_repr _ sample_args
           {[ "Data Source" := PyStr sample_source; "Data Points" := PyList [] ]}
           sample_source); vm_compute; reflexivity.
Defined.

(** ** Fatal errors *)

(** C7, amended. When the input file is not JSON, or the document passes
    the validation and one of its data points lacks [startTimeNanos] or
    [fitValue[0].value.fpVal], the run ends with exit status 1 and
    nothing is written to standard output: no record is recovered and
    no part of the output appears. *)
Theorem malformed_input_aborts (tz : Z -> Z) (py_repr : pyval -> string)
    (fs : gmap string file) (a : args) :
  fs !! input_file a = Some OtherText \/
  (exists m s dps,
     fs !! input_file a = Some (JsonText (PyDict m)) /\
     m !! "Data Source" = Some (PyStr s) /\ source_matches s = true /\
     m !! "Data Points" = Some (PyList dps) /\
     Exists (fun dp => start_time dp = None \/ first_fpval dp = None) dps) ->
  run tz py_repr fs a = {| output := EmptyString; status := 1 |}.
Proof.
  intros [Hfile|(m & s & dps & Hfile & Hs & Hm & Hp & Hex)]; rewrite run_of_process.
  - now rewrite (process_not_json tz fs _ _ Hfile).
  - rewrite (process_loaded tz fs _ _ _ Hfile).
    assert (Hne : dps <> []) by (intros ->; inversion Hex).
    rewrite (valid_format_test m s dps Hs Hm Hp Hne).
    cbn [getitem_str]. rewrite Hp. cbn [obind py_iter].
    destruct (for_data_points_raises tz dps []) as [e ->]; [|reflexivity].
    eapply Exists_impl; [exact Hex|]. intros dp. apply row_of_dp_missing.
Qed.

(** The row of the first data point is not written when the second one
    has no [fitValue]. *)
Lemma malformed_input_aborts_sample :
  run utc no_repr (one_file truncated_document) sample_args =
    {| output := EmptyString; status := 1 |}.
Proof.
  apply (malformed_input_aborts utc no_repr (one_file truncated_document) sample_args).
  right.
  exists {[ "Data Source" := PyStr sample_source;
            "Data Points" :=
              PyList [sample_point;
                      PyDict {[ "startTimeNanos" := PyInt 1451624839273000000 ]}] ]},
         sample_source,
         [sample_point; PyDict {[ "startTimeNanos" := PyInt 1451624839273000000 ]}].
  repeat split; try (vm_compute; reflexivity).
  apply Exists_cons_tl, Exists_cons_hd. right. vm_compute. reflexivity.
Defined.

(** A data point without any field in a document of another source: the
    validation comes first, so the run prints the notice and exits with
    status 0 instead of failing. *)
Lemma missing_field_behind_validation :
  start_time (PyDict ∅) = None /\
  first_fpval (PyDict ∅) = None /\
  run utc no_repr
      (one_file (document (PyStr "raw:com.google.step_count.delta") (PyList [PyDict ∅])))
      sample_args =
    {| output := ("No valid weight data found in the input file." ++ str1 LF)%string;
       status := 0 |}.
Proof. vm_compute. repeat split. Qed.

(** ** The type of the path *)

Lemma foreign_Ok {A} (a : A) : foreign (Ok a).
Proof. discriminate. Qed.

Lemma foreign_bind {A B} (c : outcome A) (k : A -> outcome B) :
  foreign c -> (forall a, foreign (k a)) -> foreign (let* x := c in k x).
Proof.
  unfold foreign. intros Hc Hk. destruct c as [a|e]; cbn [obind]; [apply Hk|].
  intros [= ->]. now apply Hc.
Qed.

Lemma foreign_py_get (o : pyval) (k : string) : foreign (py_get o k).
Proof. unfold py_get. foreign_by_cases. Qed.

Lemma foreign_getitem_str (o : pyval) (k : string) : foreign (getitem_str o k).
Proof. unfold getitem_str. foreign_by_cases. Qed.

Lemma foreign_getitem_int (o : pyval) (i : Z) : foreign (getitem_int o i).
Proof. unfold getitem_int, seq_index. foreign_by_cases. Qed.

Lemma foreign_py_len (o : pyval) : foreign (py_len o).
Proof. unfold py_len. foreign_by_cases. Qed.

Lemma foreign_py_iter (o : pyval) : foreign (py_iter o).
Proof. unfold py_iter. foreign_by_cases. Qed.

Lemma foreign_re_search (p : string) (v : pyval) : foreign (re_search p v).
Proof. unfold re_search. destruct v; discriminate. Qed.

Lemma foreign_truediv_float (a : pyval) (d : spec_float) : foreign (truediv_float a d).
Proof.
  unfold truediv_float. apply foreign_bind.
  - unfold float_of_int. foreign_by_cases.
  - intros x. foreign_by_cases.
Qed.

Lemma foreign_platform_localtime (tz : Z -> Z) (t : Z) : foreign (platform_localtime tz t).
Proof. unfold platform_localtime. foreign_by_cases. Qed.

Lemma foreign_utc_to_seconds (y m d hh mm ss : Z) : foreign (utc_to_seconds y m d hh mm ss).
Proof. unfold utc_to_seconds. foreign_by_cases. Qed.

Lemma foreign_local (tz : Z -> Z) (u : Z) : foreign (local tz u).
Proof.
  unfold local. apply foreign_bind;
    [apply foreign_platform_localtime | intros ?; apply foreign_utc_to_seconds].
Qed.

Lemma foreign_fromtimestamp (tz : Z -> Z) (t : spec_float) : foreign (fromtimestamp tz t).
Proof.
  unfold fromtimestamp. apply foreign_bind.
  - unfold timestamp_to_timeval. foreign_by_cases.
  - intros tv. apply foreign_bind; [apply foreign_platform_localtime | intros lt].
    apply foreign_bind; [apply foreign_utc_to_seconds | intros rs].
    apply foreign_bind; [apply foreign_local | intros ps].
    apply foreign_bind; [|intros ?; apply foreign_Ok].
    destruct (_ <? 0); [|apply foreign_Ok].
    apply foreign_bind; [apply foreign_local | intros ?; apply foreign_Ok].
Qed.

Create HintDb foreign.

#[local] Hint Resolve foreign_Ok foreign_py_get foreign_getitem_str foreign_getitem_int
  foreign_py_len foreign_py_iter foreign_re_search foreign_truediv_float
  foreign_fromtimestamp : foreign.

Lemma foreign_row_of_dp (tz : Z -> Z) (dp : pyval) : foreign (row_of_dp tz dp).
Proof.
  unfold row_of_dp.
  repeat (apply foreign_bind; [auto with foreign | intros ?]). auto with foreign.
Qed.

Lemma foreign_for_data_points (tz : Z -> Z) (dps : list pyval) (acc : list row) :
  foreign (for_data_points tz dps acc).
Proof.
  revert acc. induction dps as [|dp dps IH]; intros acc; cbn [for_data_points].
  - apply foreign_Ok.
  - apply foreign_bind; [apply foreign_row_of_dp | auto].
Qed.

Lemma foreign_or_else (c1 c2 : outcome bool) :
  foreign c1 -> foreign c2 -> foreign (or_else c1 c2).
Proof.
  intros H1 H2. unfold or_else. apply foreign_bind; [exact H1|].
  intros [|]; [apply foreign_Ok | exact H2].
Qed.

Lemma foreign_not_expected_format (data : pyval) : foreign (not_expected_format data).
Proof.
  unfold not_expected_format.
  repeat (apply foreign_or_else);
    repeat (apply foreign_bind; [auto with foreign | intros ?]); auto with foreign.
Qed.

(** C8. An argument that is not a string makes [process_weight_data]
    raise its [TypeError] at once, no file having been opened and
    nothing written; a string argument never makes it raise that
    error. *)
Theorem path_type_contract (tz : Z -> Z) (fs : gmap string file) :
  (forall v w, (forall s, v <> PyStr s) ->
     process_weight_data tz fs v w =
     (w, Raise (TypeError "input_file must be a string path to the JSON file."))) /\
  (forall s w,
     snd (process_weight_data tz fs (PyStr s) w) <>
     Raise (TypeError "input_file must be a string path to the JSON file.")).
Proof.
  split.
  - intros v w Hv. destruct v; try reflexivity. now destruct (Hv s).
  - intros s w. unfold process_weight_data, bind, open_, lift.
    destruct (fs !! s) as [f|]; [|discriminate].
    destruct f as [data|]; cbn [json_load snd]; [|discriminate].
    pose proof (foreign_not_expected_format data) as Hv.
    destruct (not_expected_format data) as [[|]|e]; cbn [snd].
    + discriminate.
    + pose proof (foreign_getitem_str data "Data Points") as Hp.
      destruct (getitem_str data "Data Points") as [points|]; cbn [snd];
        [|by_foreign Hp].
      pose proof (foreign_py_iter points) as Hi.
      destruct (py_iter points) as [dps|]; cbn [snd]; [|by_foreign Hi].
      apply foreign_for_data_points.
    + by_foreign Hv.
Qed.

(** The number 3 as path, and the path of the sample file. *)
Lemma path_type_contract_sample :
  process_weight_data utc (one_file sample_document) (PyInt 3) io_start =
    (io_start, Raise (TypeError "input_file must be a string path to the JSON file.")) /\
  snd (process_weight_data utc (one_file sample_document) (PyStr "weight.json") io_start) <>
    Raise (TypeError "input_file must be a string path to the JSON file.").
Proof.
  split.
  - apply (proj1 (path_type_contract utc (one_file sample_document))). discriminate.
  - apply (proj2 (path_type_contract utc (one_file sample_document))).
Defined.

(** ** A [Data Source] that is not text *)

(** C10. When [Data Source] is present and is neither null nor a string
    (a number, say), the search for the pattern raises a [TypeError]:
    the run fails with exit status 1 and prints no notice.  The notice
    is the outcome of the validation only for a [Data Source] that is
    absent, null or a string. *)
Theorem non_string_source_raises (tz : Z -> Z) (py_repr : pyval -> string)
    (fs : gmap string file) (a : args) (m : gmap string pyval) (v : pyval) :
  fs !! input_file a = Some (JsonText (PyDict m)) ->
  m !! "Data Source" = Some v -> v <> PyNone -> (forall s, v <> PyStr s) ->
  (forall w, process_weight_data tz fs (PyStr (input_file a)) w =
             (did_open (input_file a) w,
              Raise (TypeError "expected string or bytes-like object"))) /\
  run tz py_repr fs a = {| output := EmptyString; status := 1 |}.
Proof.
  intros Hfile Hs Hnone Hstr.
  assert (Hv : not_expected_format (PyDict m) =
               Raise (TypeError "expected string or bytes-like object")).
  { unfold not_expected_format, or_else. cbn [py_get getitem_str]. rewrite Hs.
    destruct v; try reflexivity; [contradiction | now destruct (Hstr s)]. }
  split.
  - intros w. now rewrite (process_loaded tz fs _ _ _ Hfile), Hv.
  - now rewrite run_of_process, (process_loaded tz fs _ _ _ Hfile), Hv.
Qed.

(** A document whose [Data Source] is the number 5. *)
Lemma non_string_source_raises_sample :
  (forall w, process_weight_data utc
               (one_file (document (PyInt 5) (PyList [sample_point])))
               (PyStr (input_file sample_args)) w =
             (did_open (input_file sample_args) w,
              Raise (TypeError "expected string or bytes-like object"))) /\
  run utc no_repr (one_file (document (PyInt 5) (PyList [sample_point]))) sample_args =
    {| output := EmptyString; status := 1 |}.
Proof.
  apply (non_string_source_raises utc no_repr _ sample_args
           {[ "Data Source" := PyInt 5; "Data Points" := PyList [sample_point] ]}
           (PyInt 5)).
  - vm_compute. reflexivity.
  - vm_compute. reflexivity.
  - discriminate.
  - discriminate.
Defined.

(** ** What the output depends on *)

Lemma same_sample_row (tz : Z -> Z) (dp1 dp2 : pyval) :
  same_sample dp1 dp2 -> same_rows (row_of_dp tz dp1) (row_of_dp tz dp2).
Proof.
  intros [Ht Hw]. unfold same_rows.
  destruct (row_of_dp tz dp1) as [r1|e1] eqn:E1.
  - apply row_of_dp_ok_inv in E1 as (t & Ht1 & Hd & Hw1).
    rewrite Ht in Ht1. rewrite Hw in Hw1.
    rewrite (row_of_dp_ok tz dp2 t (snd r1) (fst r1) Ht1 Hd Hw1). now destruct r1.
  - destruct (row_of_dp tz dp2) as [r2|e2] eqn:E2; [|exact I].
    apply row_of_dp_ok_inv in E2 as (t & Ht2 & Hd & Hw2).
    rewrite <- Ht in Ht2. rewrite <- Hw in Hw2.
    rewrite (row_of_dp_ok tz dp1 t (snd r2) (fst r2) Ht2 Hd Hw2) in E1. discriminate.
Qed.

Lemma same_sample_loop (tz : Z -> Z) (dps1 dps2 : list pyval) (acc : list row) :
  Forall2 same_sample dps1 dps2 ->
  same_rows (for_data_points tz dps1 acc) (for_data_points tz dps2 acc).
Proof.
  intros H. revert acc.
  induction H as [|dp1 dp2 dps1 dps2 Hdp _ IH]; intros acc; cbn [for_data_points].
  - reflexivity.
  - pose proof (same_sample_row tz dp1 dp2 Hdp) as Hrow. unfold same_rows in Hrow.
    destruct (row_of_dp tz dp1) as [r1|]; destruct (row_of_dp tz dp2) as [r2|];
      try contradiction; cbn [obind].
    + subst r2. apply IH.
    + exact I.
Qed.

Lemma same_fields_test (m1 m2 : gmap string pyval) (dps1 dps2 : list pyval) :
  m1 !! "Data Source" = m2 !! "Data Source" ->
  m1 !! "Data Points" = Some (PyList dps1) ->
  m2 !! "Data Points" = Some (PyList dps2) ->
  length dps1 = length dps2 ->
  not_expected_format (PyDict m1) = not_expected_format (PyDict m2).
Proof.
  intros Hs Hp1 Hp2 Hl. unfold not_expected_format.
  cbn [py_get getitem_str]. rewrite Hs, Hp1, Hp2. cbn [obind py_len]. now rewrite Hl.
Qed.

(** C9. Two documents with the same [Data Source] whose data points
    agree, one by one, on [startTimeNanos] and on the [fpVal] of the
    first [fitValue] element produce the same rows, the same text on
    standard output and the same exit status, whatever their other
    fields hold. *)
Theorem output_depends_on_read_fields (tz : Z -> Z) (py_repr : pyval -> string)
    (fs1 fs2 : gmap string file) (a1 a2 : args)
    (m1 m2 : gmap string pyval) (dps1 dps2 : list pyval) :
  fs1 !! input_file a1 = Some (JsonText (PyDict m1)) ->
  fs2 !! input_file a2 = Some (JsonText (PyDict m2)) ->
  m1 !! "Data Source" = m2 !! "Data Source" ->
  m1 !! "Data Points" = Some (PyList dps1) ->
  m2 !! "Data Points" = Some (PyList dps2) ->
  Forall2 same_sample dps1 dps2 ->
  (forall w1 w2,
     same_rows (snd (process_weight_data tz fs1 (PyStr (input_file a1)) w1))
               (snd (process_weight_data tz fs2 (PyStr (input_file a2)) w2))) /\
  run tz py_repr fs1 a1 = run tz py_repr fs2 a2.
Proof.
  intros Hf1 Hf2 Hs Hp1 Hp2 Hdps.
  pose proof (same_fields_test m1 m2 dps1 dps2 Hs Hp1 Hp2 (Forall2_length _ _ _ Hdps)) as Hv.
  pose proof (same_sample_loop tz dps1 dps2 [] Hdps) as Hloop.
  split.
  - intros w1 w2.
    rewrite (process_loaded tz fs1 _ _ w1 Hf1), (process_loaded tz fs2 _ _ w2 Hf2), Hv.
    destruct (not_expected_format (PyDict m2)) as [[|]|e]; cbn [snd same_rows]; auto.
    cbn [getitem_str]. rewrite Hp1, Hp2. cbn [obind py_iter]. exact Hloop.
  - rewrite !run_of_process.
    rewrite (process_loaded tz fs1 _ _ _ Hf1), (process_loaded tz fs2 _ _ _ Hf2), Hv.
    destruct (not_expected_format (PyDict m2)) as [[|]|e]; try reflexivity.
    cbn [getitem_str]. rewrite Hp1, Hp2. cbn [obind py_iter].
    unfold same_rows in Hloop.
    destruct (for_data_points tz dps1 []) as [rows1|];
      destruct (for_data_points tz dps2 []) as [rows2|]; try contradiction.
    + now subst rows2.
    + reflexivity.
Qed.

(** The sample document and the one with the altered point are
    converted alike. *)
Lemma output_depends_on_read_fields_sample :
  (forall w1 w2,
     same_rows
       (snd (process_weight_data utc (one_file sample_document)
               (PyStr (input_file sample_args)) w1))
       (snd (process_weight_data utc
               (one_file (document (PyStr sample_source) (PyList [altered_point])))
               (PyStr (input_file sample_args)) w2))) /\
  run utc no_repr (one_file sample_document) sample_args =
  run utc no_repr (one_file (document (PyStr sample_source) (PyList [altered_point])))
      sample_args.
Proof.
  apply (output_depends_on_read_fields utc no_repr _ _ sample_args sample_args
           {[ "Data Source" := PyStr sample_source; "Data Points" := PyList [sample_point] ]}
           {[ "Data Source" := PyStr sample_source; "Data Points" := PyList [altered_point] ]}
           [sample_point] [altered_point]).
  - vm_compute. reflexivity.
  - vm_compute. reflexivity.
  - vm_compute. reflexivity.
  - vm_compute. reflexivity.
  - vm_compute. reflexivity.
  - constructor; [|constructor]. split; vm_compute; reflexivity.
Defined.

(** The reference timestamp of the sample point, in UTC. *)
Lemma reference_timestamp_date_utc :
  local_date utc (PyInt 1451624839273000000) = Ok "2016-01-01" /\
  forall w, first_fpval sample_point = Some w ->
    row_of_dp utc sample_point = Ok ("2016-01-01", w).
Proof.
  apply (reference_timestamp_date utc sample_point).
  - unfold utc. lia.
  - vm_compute. reflexivity.
Defined.

(** The sample export, in UTC. *)
Lemma weight_unmodified_sample :
  exists rows,
    (forall w, process_weight_data utc (one_file sample_document)
                 (PyStr (input_file sample_args)) w =
               (did_open (input_file sample_args) w, Ok rows)) /\
    Forall2 (fun dp r => row_of_dp utc dp = Ok r /\ first_fpval dp = Some (snd r))
      [sample_point] rows /\
    run utc no_repr (one_file sample_document) sample_args =
      {| output := (("date,weight" ++ CRLF) ++ csv_text no_repr rows)%string;
         status := 0 |} /\
    (forall r n, In r rows -> snd r = PyInt n ->
       csv_record no_repr [PyStr (fst r); snd r] =
       (fst r ++ "," ++ str_of_int n ++ CRLF)%string).
Proof.
  apply (weight_unmodified utc no_repr (one_file sample_document) sample_args
           {[ "Data Source" := PyStr sample_source; "Data Points" := PyList [sample_point] ]}
           sample_source [sample_point]).
  - vm_compute. reflexivity.
  - vm_compute. reflexivity.
  - vm_compute. reflexivity.
  - vm_compute. reflexivity.
  - discriminate.
  - constructor; [|constructor].
    exists (PyInt 1451624839273000000), (PyInt 89), "2016-01-01". vm_compute. auto.
Defined.

(** The sample export, whose one data point has [fpVal] 89, in UTC: the
    row returned carries the weight 89, and the run writes it after the
    header. *)
Example sample_export_output :
  process_weight_data utc (one_file sample_document) (PyStr "weight.json") io_start =
    (did_open "weight.json" io_start, Ok [("2016-01-01", PyInt 89)]) /\
  run utc no_repr (one_file sample_document) sample_args =
    {| output := ("date,weight" ++ CRLF ++ "2016-01-01,89" ++ CRLF)%string; status := 0 |}.
Proof. vm_compute. split; reflexivity. Qed.

(** The data point of the sample, with [fpVal] 89, is written with the
    weight 89. *)
Example sample_point_line :
  line_of_dp utc no_repr sample_point = ("2016-01-01,89" ++ CRLF)%string.
Proof. vm_compute. reflexivity. Qed.


(** * Further properties of the program *)

#[local] Arguments source_matches : simpl never.

(** ** What the validation accepts *)

Lemma expected_format_inv (data : pyval) :
  not_expected_format data = Ok false -> expected_format data.
Proof.
  unfold not_expected_format, or_else.
  destruct data as [| | | | | |m]; cbn; try discriminate.
  destruct (m !! "Data Source") as [src|] eqn:Hs; cbn; [|discriminate].
  destruct src as [| | | |s| |]; cbn; try discriminate.
  rewrite re_search_source. cbn.
  destruct (source_matches s) eqn:Hm; cbn; [|discriminate].
  destruct (m !! "Data Points") as [v|] eqn:Hp; cbn; [|discriminate].
  destruct (is_none v) eqn:Hn; cbn; [discriminate|].
  destruct (py_len v) as [n|] eqn:Hl; cbn; [|discriminate].
  intros [= Hz]. apply Z.eqb_neq in Hz.
  now exists m, s, v, n.
Qed.

Lemma expected_format_test (data : pyval) :
  expected_format data -> not_expected_format data = Ok false.
Proof.
  intros (m & s & v & n & -> & Hs & Hm & Hp & Hl & Hz).
  unfold not_expected_format, or_else. cbn. rewrite Hs, Hp. cbn.
  rewrite re_search_source, Hm. cbn.
  destruct v; try discriminate; cbn in *; injection Hl as <-;
    apply Z.eqb_neq in Hz; now rewrite Hz.
Qed.



(** ** Every outcome of [process_weight_data] *)

Lemma list_or_not (v : pyval) : (exists l, v = PyList l) \/ (forall l, v <> PyList l).
Proof. destruct v; try (right; discriminate). left. now exists l. Qed.

Lemma loop_over_text (tz : Z -> Z) (k : string) (items : list pyval) (acc : list row) :
  for_data_points tz (PyStr k :: items) acc = Raise text_index_error.
Proof. reflexivity. Qed.

(** A text or an object of length other than zero is iterated over its
    characters or its keys: texts. *)
Lemma iter_non_list (v : pyval) (n : Z) :
  (forall l, v <> PyList l) -> py_len v = Ok n -> n <> 0 ->
  exists k items, py_iter v = Ok (PyStr k :: items).
Proof.
  intros Hl Hn Hz. destruct v as [| | | |s|l|m]; try discriminate.
  - destruct s as [|c s]; cbn in Hn; [injection Hn as <-; contradiction|].
    now exists (str1 c), (chars s).
  - now destruct (Hl l).
  - cbn in Hn. injection Hn as <-. cbn [py_iter].
    destruct (map_to_list m) as [|[k x] rest] eqn:E.
    + apply map_to_list_empty_iff in E. subst m.
      rewrite map_size_empty in Hz. contradiction.
    + now exists k, (map (fun kv => PyStr (fst kv)) rest).
Qed.

Lemma process_no_file (tz : Z -> Z) (fs : gmap string file) (path : string) (w : io) :
  fs !! path = None ->
  process_weight_data tz fs (PyStr path) w = (w, Raise (FileNotFoundError path)).
Proof. intros Hf. unfold process_weight_data, bind, open_. now rewrite Hf. Qed.

Lemma process_cases (tz : Z -> Z) (fs : gmap string file) (path : string) (w : io) :
  process_outcome tz fs path w (process_weight_data tz fs (PyStr path) w).
Proof.
  destruct (fs !! path) as [[data|]|] eqn:Hf.
  - rewrite (process_loaded tz fs path data w Hf).
    destruct (not_expected_format data) as [[|]|e] eqn:Hv.
    + now apply (refused tz fs path w data).
    + apply expected_format_inv in Hv as (m & s & v & n & -> & Hs & Hm & Hp & Hl & Hz).
      cbn [getitem_str]. rewrite Hp. cbn [obind].
      destruct (list_or_not v) as [[dps ->]|Hnl].
      * cbn [py_iter obind].
        destruct (for_data_points tz dps []) as [out|e] eqn:E.
        -- apply for_data_points_ok_inv in E as (rows & -> & HF).
           apply (converted tz fs path w m s dps rows); auto.
           intros ->. cbn in Hl. injection Hl as <-. contradiction.
        -- apply failed. now rewrite Hf.
      * destruct (iter_non_list v n Hnl Hl Hz) as (k & items & ->).
        cbn [obind]. rewrite loop_over_text. apply failed. now rewrite Hf.
    + apply failed. now rewrite Hf.
  - rewrite (process_not_json tz fs path w Hf). apply failed. now rewrite Hf.
  - rewrite (process_no_file tz fs path w Hf). now apply no_file.
Qed.



(** The text on standard output and the result do not depend on the
    files opened before nor on the logging level. *)
Lemma process_frame (tz : Z -> Z) (fs : gmap string file) (v : pyval) (w1 w2 : io) :
  stdout w1 = stdout w2 ->
  stdout (fst (process_weight_data tz fs v w1)) =
    stdout (fst (process_weight_data tz fs v w2)) /\
  snd (process_weight_data tz fs v w1) = snd (process_weight_data tz fs v w2).
Proof.
  intros Hw. destruct v as [| | | |path| |]; try (cbn; now auto).
  destruct (fs !! path) as [[data|]|] eqn:Hf.
  - rewrite !(process_loaded tz fs path data _ Hf).
    destruct (not_expected_format data) as [[|]|]; cbn; now rewrite Hw.
  - rewrite !(process_not_json tz fs path _ Hf). cbn. now rewrite Hw.
  - rewrite !(process_no_file tz fs path _ Hf). cbn. now rewrite Hw.
Qed.

Lemma run_report (tz : Z -> Z) (py_repr : pyval -> string)
    (fs : gmap string file) (a : args) (w : io) :
  stdout w = EmptyString ->
  run tz py_repr fs a =
  report py_repr (stdout (fst (process_weight_data tz fs (PyStr (input_file a)) w)))
         (snd (process_weight_data tz fs (PyStr (input_file a)) w)).
Proof.
  intros Hw. rewrite run_of_process.
  destruct (process_frame tz fs (PyStr (input_file a))
              {| stdout := EmptyString; opened := []; root_level := loglevel a |} w)
    as [<- <-]; [now rewrite Hw|].
  now destruct (process_weight_data tz fs (PyStr (input_file a)) _) as [w' [[|r rows]|e]].
Qed.








(** ** [Data Points] that is not a list *)

Lemma process_expected (tz : Z -> Z) (fs : gmap string file) (path : string)
    (m : gmap string pyval) (s : string) (v : pyval) (n : Z) (w : io) :
  fs !! path = Some (JsonText (PyDict m)) ->
  m !! "Data Source" = Some (PyStr s) -> source_matches s = true ->
  m !! "Data Points" = Some v -> py_len v = Ok n -> n <> 0 ->
  process_weight_data tz fs (PyStr path) w =
  (did_open path w, let* dps := py_iter v in for_data_points tz dps []).
Proof.
  intros Hf Hs Hm Hp Hl Hz. rewrite (process_loaded tz fs _ _ _ Hf).
  rewrite (expected_format_test (PyDict m)) by (now exists m, s, v, n).
  cbn [getitem_str]. now rewrite Hp.
Qed.





(** ** The loop *)



Lemma loop_first_failure (tz : Z -> Z) (l1 l2 : list pyval) (dp : pyval)
    (e : exn) (acc : list row) :
  Forall (fun dp' => exists r, row_of_dp tz dp' = Ok r) l1 ->
  row_of_dp tz dp = Raise e ->
  for_data_points tz (l1 ++ dp :: l2) acc = Raise e.
Proof.
  intros H He. revert acc.
  induction H as [|dp' l1 [r Hr] _ IH]; intros acc; cbn [app for_data_points].
  - now rewrite He.
  - rewrite Hr. cbn [obind]. apply IH.
Qed.



(** ** The pattern of the [Data Source] *)




(** ** The date of a row *)

Lemma civil_from_days_valid (n : Z) :
  let '(y, m, d) := civil_from_days n in 1 <= m <= 12 /\ 1 <= d <= 31.
Proof.
  unfold civil_from_days.
  set (z := n + 719468).
  set (era := z / 146097).
  set (doe := z - era * 146097).
  assert (Hdoe : 0 <= doe <= 146096).
  { subst doe era. pose proof (Z.mod_pos_bound z 146097 ltac:(lia)) as H.
    rewrite Z.mod_eq in H by lia. lia. }
  clearbody doe. clear z era.
  set (yoe := (doe - doe / 1460 + doe / 36524 - doe / 146096) / 365).
  set (doy := doe - (365 * yoe + yoe / 4 - yoe / 100)).
  assert (Hdoy : 0 <= doy <= 365).
  { subst doy yoe. Z.to_euclidean_division_equations. lia. }
  clearbody doy. clear Hdoe.
  set (mp := (5 * doy + 2) / 153).
  assert (Hmp : 0 <= mp <= 11) by (subst mp; Z.to_euclidean_division_equations; lia).
  assert (Hd : 1 <= doy - (153 * mp + 2) / 5 + 1 <= 31).
  { subst mp. Z.to_euclidean_division_equations. lia. }
  destruct (mp <? 10) eqn:E.
  - apply Z.ltb_lt in E. destruct (mp + 3 <=? 2); split; lia.
  - apply Z.ltb_ge in E. destruct (mp - 9 <=? 2); split; lia.
Qed.

Lemma fromtimestamp_valid (tz : Z -> Z) (t : spec_float) (dt : datetime) :
  fromtimestamp tz t = Ok dt ->
  1 <= year dt <= 9999 /\ 1 <= month dt <= 12 /\ 1 <= day dt <= 31.
Proof.
  unfold fromtimestamp.
  destruct (timestamp_to_timeval t) as [[sec us]|]; cbn [obind fst snd]; [|discriminate].
  unfold platform_localtime.
  pose proof (civil_from_days_valid ((sec + utc_offset tz sec) / 86400)) as Hc.
  destruct (civil_from_days ((sec + utc_offset tz sec) / 86400)) as [[y m] d].
  destruct (_ && _); cbn [obind]; [|discriminate].
  cbn [tm_year tm_mon tm_mday tm_hour tm_min tm_sec].
  unfold utc_to_seconds at 1.
  destruct ((y - 1900 + 1900 <? 1) || (9999 <? y - 1900 + 1900)) eqn:Hy;
    cbn [obind]; [discriminate|].
  destruct (local tz _) as [ps|]; cbn [obind]; [|discriminate].
  destruct (_ <? 0); [destruct (local tz _); cbn [obind]; [|discriminate]|];
    cbn [obind]; intros [= <-]; cbn [year month day];
    apply orb_false_elim in Hy as [H1 H2]; apply Z.ltb_ge in H1, H2; lia.
Qed.



(** ** The start time *)


